(** * Wasallha customer dashboard: pricing, cart and order hand-over

    A shallow embedding of the logic of [src/CustomerDashboard.tsx]:
    the two price calculators ([getEstimatedPrice], [getDeliveryPrice]),
    the restaurant cart ([addToCart], [removeFromCart]) and the handlers
    that write to the [orders] collection ([handleAcceptOffer],
    [handleRateOrder]).

    Conventions.
    - A JavaScript [number] that carries a price, a distance or a
      multiplier is a rational ([Q]); arithmetic is exact and compared
      with [==].  Counters and clock readings are integers ([Z]).
    - A JavaScript string is its sequence of UTF-16 code units, so that
      [===] is equality of sequences and [trim] is the ECMAScript one.
    - React state read by a closure is an explicit argument; a [setX]
      call is a field of the returned state.
    - The Firestore collection is a finite map from document id to
      document; [updateDoc] is one atomic step on that map. *)

From Stdlib Require Import QArith Qround ZArith Lia.
From stdpp Require Import gmap list strings.

(* ===================================================================== *)
(** ** JavaScript primitives used by the component *)
(* ===================================================================== *)

Module JS.

(** A string value: UTF-16 code units. *)
Abbreviation JSString := (list N).

(** An ASCII literal as a JavaScript string. *)
Definition lit (s : string) : JSString :=
  Ascii.N_of_ascii <$> String.list_ascii_of_string s.

(** [WhiteSpace] and [LineTerminator] code points of ECMAScript, the ones
    [String.prototype.trim] strips. *)
Definition isWhiteSpace (c : N) : bool :=
  ((c =? 0x0009) || (c =? 0x000A) || (c =? 0x000B) || (c =? 0x000C)
   || (c =? 0x000D) || (c =? 0x0020) || (c =? 0x00A0) || (c =? 0x1680)
   || ((0x2000 <=? c) && (c <=? 0x200A))
   || (c =? 0x2028) || (c =? 0x2029) || (c =? 0x202F) || (c =? 0x205F)
   || (c =? 0x3000) || (c =? 0xFEFF))%N.

Fixpoint trimStart (s : JSString) : JSString :=
  match s with
  | [] => []
  | c :: s' => if isWhiteSpace c then trimStart s' else s
  end.

Definition trimEnd (s : JSString) : JSString :=
  reverse (trimStart (reverse s)).

(** [s.trim()] *)
Definition trim (s : JSString) : JSString := trimEnd (trimStart s).

(** [s || null] on an optional string: [undefined] and the empty string
    are falsy. *)
Definition orNull (s : option JSString) : option JSString :=
  match s with
  | Some (c :: r) => Some (c :: r)
  | _ => None
  end.

(** [Math.round]: the nearest integer, a tie going to the larger one. *)
Definition Math_round (x : Q) : Q := inject_Z (Qfloor (x + (1 # 2))).

(** [Math.max] of two numbers. *)
Definition Math_max (a b : Q) : Q := if Qle_bool a b then b else a.

(** [x || d] on an optional number: [undefined] and [0] are falsy. *)
Definition orDefault (x : option Q) (d : Q) : Q :=
  match x with
  | Some q => if Qeq_bool q 0 then d else q
  | None => d
  end.

(** A number with no fractional part (a whole amount of currency). *)
Definition isInteger (q : Q) : Prop := inject_Z (Qfloor q) == q.

End JS.

Import JS.

(* ===================================================================== *)
(** ** Types of [../types] and the pricing table of [../config/constants] *)
(* ===================================================================== *)

(** Modelled from the spec: [OrderCategory] is declared in [../types],
    which is not among the sources; the spec (section 3) lists
    [TAXI | FOOD | PHARMACY], the three literals the component uses. *)
Inductive OrderCategory := TAXI | FOOD | PHARMACY.

(** Modelled from the spec: [VehicleType] of [../types]; the spec lists
    [MOTORCYCLE | TOKTOK | CAR], the three ids of the vehicle buttons. *)
Inductive VehicleType := MOTORCYCLE | TOKTOK | CAR.

(** Modelled from the spec: the [OrderStatus] enum of [../types].  The
    component names [WAITING_FOR_OFFERS], [ACCEPTED], [DELIVERED],
    [DELIVERED_RATED] and [CANCELLED]; [ACTIVE_DELIVERY] is the spec's
    name for whatever the courier side puts between acceptance and
    delivery. *)
Inductive OrderStatus :=
| WAITING_FOR_OFFERS | ACCEPTED | ACTIVE_DELIVERY
| DELIVERED | DELIVERED_RATED | CANCELLED.

#[global] Instance OrderCategory_eq_dec : EqDecision OrderCategory.
Proof. solve_decision. Defined.
#[global] Instance VehicleType_eq_dec : EqDecision VehicleType.
Proof. solve_decision. Defined.
#[global] Instance OrderStatus_eq_dec : EqDecision OrderStatus.
Proof. solve_decision. Defined.

Record LatLng := { lat : Q; lng : Q }.

(** Modelled from the spec: [Village] of [../types], with the fields the
    component reads ([id], [name], [center.lat], [center.lng]). *)
Record Village := {
  village_id : JSString;
  village_name : JSString;
  center : LatLng
}.

(** Modelled from the spec: the shape of [DEFAULT_PRICING] in
    [../config/constants]: six numbers and a per-vehicle table whose
    entries may be absent.  Its values are not among the sources, so every
    statement below is about an arbitrary table. *)
Record Pricing := {
  basePrice : Q;
  pricePerKm : Q;
  minPrice : Q;
  sameVillagePrice : Q;
  deliveryBasePrice : Q;
  foodOutsidePricePerKm : Q;
  multipliers : VehicleType -> option Q
}.

(** [pickupVillage?.id === dropoffVillage.id]: with no pickup village the
    left side is [undefined], never equal to an id. *)
Definition sameVillageId (pickup : option Village) (dropoff : Village) : bool :=
  match pickup with
  | Some p => bool_decide (village_id p = village_id dropoff)
  | None => false
  end.

(* ===================================================================== *)
(** ** The dashboard's price estimate *)
(* ===================================================================== *)

Module Dashboard.

(** The [useState] cells that [getEstimatedPrice] and the distance effect
    close over. *)
Record State := {
  selectedCategory : OrderCategory;
  pickupVillage : option Village;
  dropoffVillage : option Village;
  selectedVehicle : VehicleType;
  actualRoadDist : Q;
  isCalculatingDist : bool
}.

(** The component's first render: [useState] initial values. *)
Definition initialState : State := {|
  selectedCategory := TAXI;
  pickupVillage := None;
  dropoffVillage := None;
  selectedVehicle := MOTORCYCLE;
  actualRoadDist := 0;
  isCalculatingDist := false
|}.

Definition setActualRoadDist (d : Q) (st : State) : State := {|
  selectedCategory := selectedCategory st;
  pickupVillage := pickupVillage st;
  dropoffVillage := dropoffVillage st;
  selectedVehicle := selectedVehicle st;
  actualRoadDist := d;
  isCalculatingDist := isCalculatingDist st
|}.

Definition setIsCalculatingDist (b : bool) (st : State) : State := {|
  selectedCategory := selectedCategory st;
  pickupVillage := pickupVillage st;
  dropoffVillage := dropoffVillage st;
  selectedVehicle := selectedVehicle st;
  actualRoadDist := actualRoadDist st;
  isCalculatingDist := b
|}.

(** The promise of [getRoadDistance] once settled: [Some d] when it
    resolves with [res.distance = d] ([.then]), [None] when it rejects
    ([.catch]). *)
Definition settleRoadDistance (res : option Q) (st : State) : State :=
  match res with
  | Some d => setIsCalculatingDist false (setActualRoadDist d st)
  | None => setIsCalculatingDist false st
  end.

(** The effect that tracks the road distance, run to the settlement of
    its promise.  [res] is the outcome of the distance service. *)
Definition distanceEffect (res : option Q) (st : State) : State :=
  match pickupVillage st, dropoffVillage st with
  | Some p, Some d =>
      if bool_decide (village_id p = village_id d)
      then setActualRoadDist 0 st
      else settleRoadDistance res (setIsCalculatingDist true st)
  | _, Some d =>
      if bool_decide (selectedCategory st = PHARMACY)
      then settleRoadDistance res (setIsCalculatingDist true st)
      else st
  | _, None => st
  end.

(** [getEstimatedPrice] *)
Definition getEstimatedPrice (P : Pricing) (st : State) : Q :=
  match dropoffVillage st with
  | None => 0
  | Some dropoff =>
      let multiplier := orDefault (multipliers P (selectedVehicle st)) 1 in
      if bool_decide (selectedCategory st = TAXI)
         && sameVillageId (pickupVillage st) dropoff
      then sameVillagePrice P
      else if bool_decide (selectedCategory st = PHARMACY)
      then
        let calc :=
          ((deliveryBasePrice P + actualRoadDist st * pricePerKm P) * multiplier)%Q in
        Math_max (deliveryBasePrice P) (Math_round calc)
      else if bool_decide (selectedCategory st = FOOD)
              && negb (sameVillageId (pickupVillage st) dropoff)
      then Math_round (actualRoadDist st * foodOutsidePricePerKm P)%Q
      else
        let calc :=
          ((basePrice P + actualRoadDist st * pricePerKm P) * multiplier)%Q in
        Math_max (minPrice P) (Math_round calc)
  end.

(** How a call can end: with a returned number, or with an error raised
    to the caller. *)
Inductive Completion := Returned (price : Q) | ConfigurationError.

(** A call of [getEstimatedPrice].  Its body has no [throw] and calls only
    [Math.max] and [Math.round]: each of its five paths ends in a
    [return]. *)
Definition callGetEstimatedPrice (P : Pricing) (st : State) : Completion :=
  Returned (getEstimatedPrice P st).

End Dashboard.

(* ===================================================================== *)
(** ** The restaurant menu view: cart and delivery price *)
(* ===================================================================== *)

Module Menu.

(** Modelled from the spec: [MenuItem], [CartItem] and [Restaurant] of
    [../types], with the fields the menu view reads or builds. *)
Record MenuItem := {
  item_id : JSString;
  item_name : JSString;
  item_price : Q
}.

Record CartItem := {
  id : JSString;
  name : JSString;
  price : Q;
  quantity : Z
}.

Record Restaurant := {
  restaurant_id : JSString;
  restaurant_name : JSString;
  address : JSString;
  restaurant_pos : LatLng
}.

(** [{ ...i, quantity: q }] *)
Definition withQuantity (q : Z) (i : CartItem) : CartItem :=
  {| id := id i; name := name i; price := price i; quantity := q |}.

(** [prev.find(i => i.id === k)] *)
Definition findItem (k : JSString) (prev : list CartItem) : option CartItem :=
  List.find (fun i => bool_decide (id i = k)) prev.

(** [addToCart], as the updater passed to [setCart]. *)
Definition addToCart (item : MenuItem) (prev : list CartItem) : list CartItem :=
  match findItem (item_id item) prev with
  | Some _ =>
      (fun i => if bool_decide (id i = item_id item)
                then withQuantity (quantity i + 1) i else i) <$> prev
  | None =>
      prev ++ [ {| id := item_id item; name := item_name item;
                   price := item_price item; quantity := 1 |} ]
  end.

(** [removeFromCart], as the updater passed to [setCart]. *)
Definition removeFromCart (k : JSString) (prev : list CartItem) : list CartItem :=
  filter (fun i => (0 < quantity i)%Z)
    ((fun i => if bool_decide (id i = k)
               then withQuantity (Z.max 0 (quantity i - 1)) i else i) <$> prev).

(** The number shown between the two buttons of a menu row:
    [cart.find(i => i.id === k)?.quantity || 0]. *)
Definition shownQuantity (k : JSString) (cart : list CartItem) : Z :=
  match findItem k cart with
  | Some i => quantity i
  | None => 0
  end.

(** A click on [+] or on [-] of a menu row. *)
Inductive Click :=
| Plus (item : MenuItem)
| Minus (k : JSString).

Definition click (c : Click) (cart : list CartItem) : list CartItem :=
  match c with
  | Plus item => addToCart item cart
  | Minus k => removeFromCart k cart
  end.

(** The cart after a sequence of clicks, oldest first. *)
Definition clicks (cs : list Click) (cart : list CartItem) : list CartItem :=
  fold_left (fun acc c => click c acc) cs cart.

(** The cart invariant: positive quantities, no id twice. *)
Definition cartOk (cart : list CartItem) : Prop :=
  Forall (fun i => (0 < quantity i)%Z) cart /\ NoDup (id <$> cart).

(** [totalFoodItemsPrice] *)
Definition totalFoodItemsPrice (cart : list CartItem) : Q :=
  fold_left (fun sum item => (sum + price item * inject_Z (quantity item))%Q) cart 0%Q.

(** [getDeliveryPrice], over the view's [currentVillage] and [roadDist]. *)
Definition getDeliveryPrice (P : Pricing) (restaurant : Restaurant)
    (currentVillage : option Village) (roadDist : Q) : Q :=
  match currentVillage with
  | None => 0
  | Some v =>
      let isSameVillage := bool_decide (address restaurant = village_name v) in
      if isSameVillage then sameVillagePrice P
      else
        let calc := (roadDist * foodOutsidePricePerKm P)%Q in
        Math_round calc
  end.

(** [finalEstimatedPrice] *)
Definition finalEstimatedPrice (P : Pricing) (restaurant : Restaurant)
    (currentVillage : option Village) (roadDist : Q) (cart : list CartItem) : Q :=
  (totalFoodItemsPrice cart + getDeliveryPrice P restaurant currentVillage roadDist)%Q.

End Menu.

(* ===================================================================== *)
(** ** The [orders] collection and the handlers that write to it *)
(* ===================================================================== *)

Module Lifecycle.

(** Modelled from the spec: [Offer] and [Order] of [../types].  An offer
    has the fields [handleAcceptOffer] reads; an order has the fields the
    handlers write, with the ones [handleCreateOrder] always sets
    ([customerId], [category], [price], [distance], [createdAt]).  A field
    that a document may lack, or that may hold [null], is an [option]. *)
Record Offer := {
  offer_id : JSString;
  orderId : JSString;
  offer_driverId : JSString;
  offer_driverName : JSString;
  offer_driverPhone : JSString;
  offer_driverPhoto : option JSString;
  driverRating : option Q;
  offer_price : Q
}.

Record Order := {
  order_id : JSString;
  customerId : JSString;
  category : OrderCategory;
  status : OrderStatus;
  price : Q;
  distance : Q;
  createdAt : Z;
  driverId : option JSString;
  driverName : option JSString;
  driverPhone : option JSString;
  driverPhoto : option JSString;
  acceptedAt : option Z;
  rating : option Z;
  feedback : option JSString;
  ratedAt : option Z
}.

(** [updateDoc(doc(db, "orders", k), fields)]: the fields are merged into
    the document stored under [k], whatever it holds; the promise rejects
    ([None]) when there is no such document.  No precondition on the
    stored document can be passed. *)
Definition updateDoc (k : JSString) (fields : Order -> Order)
    (db : gmap JSString Order) : option (gmap JSString Order) :=
  match db !! k with
  | Some o => Some (<[k := fields o]> db)
  | None => None
  end.

(** How a handler ends. *)
Inductive Outcome :=
| Skipped   (* [if (!activeOrder) return] *)
| Written   (* the awaited [updateDoc] resolved *)
| Alerted.  (* it rejected: the [catch] branch shows an alert *)

(** The object literal [handleAcceptOffer] passes to [updateDoc]. *)
Definition acceptFields (now : Z) (offer : Offer) (o : Order) : Order := {|
  order_id := order_id o;
  customerId := customerId o;
  category := category o;
  status := ACCEPTED;
  price := offer_price offer;
  distance := distance o;
  createdAt := createdAt o;
  driverId := Some (offer_driverId offer);
  driverName := Some (offer_driverName offer);
  driverPhone := Some (offer_driverPhone offer);
  driverPhoto := orNull (offer_driverPhoto offer);
  acceptedAt := Some now;
  rating := rating o;
  feedback := feedback o;
  ratedAt := ratedAt o
|}.

(** [handleAcceptOffer]; [activeOrder] is the client's latest snapshot of
    its order and [now] the reading of [Date.now()]. *)
Definition handleAcceptOffer (now : Z) (activeOrder : option Order)
    (offer : Offer) (db : gmap JSString Order)
  : gmap JSString Order * Outcome :=
  match activeOrder with
  | None => (db, Skipped)
  | Some a =>
      match updateDoc (order_id a) (acceptFields now offer) db with
      | Some db' => (db', Written)
      | None => (db, Alerted)
      end
  end.

(** The rating form: the [rating], [feedback] and [isSubmitting] cells. *)
Record RatingForm := {
  form_rating : Z;
  form_feedback : JSString;
  isSubmitting : bool
}.

Definition initialForm : RatingForm :=
  {| form_rating := 5; form_feedback := []; isSubmitting := false |}.

(** The object literal [handleRateOrder] passes to [updateDoc]. *)
Definition rateFields (now : Z) (form : RatingForm) (o : Order) : Order := {|
  order_id := order_id o;
  customerId := customerId o;
  category := category o;
  status := DELIVERED_RATED;
  price := price o;
  distance := distance o;
  createdAt := createdAt o;
  driverId := driverId o;
  driverName := driverName o;
  driverPhone := driverPhone o;
  driverPhoto := driverPhoto o;
  acceptedAt := acceptedAt o;
  rating := Some (form_rating form);
  feedback := Some (trim (form_feedback form));
  ratedAt := Some now
|}.

(** [handleRateOrder]: the form is reset after a write that resolved and
    kept after one that rejected; [isSubmitting] is cleared either way. *)
Definition handleRateOrder (now : Z) (activeOrder : option Order)
    (form : RatingForm) (db : gmap JSString Order)
  : gmap JSString Order * RatingForm * Outcome :=
  match activeOrder with
  | None => (db, form, Skipped)
  | Some a =>
      match updateDoc (order_id a) (rateFields now form) db with
      | Some db' =>
          (db', {| form_rating := 5; form_feedback := []; isSubmitting := false |},
           Written)
      | None =>
          (db, {| form_rating := form_rating form;
                  form_feedback := form_feedback form;
                  isSubmitting := false |}, Alerted)
      end
  end.

(** The [orders] listener: the active order is the first document of the
    snapshot that is neither rated nor cancelled. *)
Definition selectActiveOrder (all : list Order) : option Order :=
  List.find
    (fun o => negb (bool_decide (status o ∈ [DELIVERED_RATED; CANCELLED])))
    all.

(** Which part of the page is rendered for a given [activeOrder]: the
    offers list with its accept buttons, the rating form, or neither. *)
Inductive Screen := NewOrderForm | OffersList | RatingScreen | Tracking.

Definition screen (activeOrder : option Order) : Screen :=
  match activeOrder with
  | None => NewOrderForm
  | Some a =>
      if bool_decide (status a = WAITING_FOR_OFFERS) then OffersList
      else if bool_decide (status a = DELIVERED) then RatingScreen
      else Tracking
  end.

End Lifecycle.

(* ===================================================================== *)
(** ** Concrete data: the spec's scenarios *)
(* ===================================================================== *)

Module Scenario.

Import Dashboard.

(** Modelled from the spec: the pricing table of the two pricing scenarios
    of the spec's section 8 ([basePrice=10], [pricePerKm=3], [minPrice=15],
    [deliveryBasePrice=20], [multiplier(CAR)=1.2],
    [multiplier(MOTORCYCLE)=1]); [sameVillagePrice] and
    [foodOutsidePricePerKm] are the 25 and the 3 of the comments in
    [getDeliveryPrice]; the scenarios give [TOKTOK] no entry. *)
Definition pricing : Pricing := {|
  basePrice := 10;
  pricePerKm := 3;
  minPrice := 15;
  sameVillagePrice := 25;
  deliveryBasePrice := 20;
  foodOutsidePricePerKm := 3;
  multipliers := fun v =>
    match v with
    | MOTORCYCLE => Some 1%Q
    | CAR => Some (12 # 10)%Q
    | TOKTOK => None
    end
|}.

Definition ashmoun : Village :=
  {| village_id := lit "v1"; village_name := lit "Ashmoun";
     center := {| lat := 302931 # 10000; lng := 309863 # 10000 |} |}.

Definition shatanouf : Village :=
  {| village_id := lit "v2"; village_name := lit "Shatanouf";
     center := {| lat := 3021 # 100; lng := 3095 # 100 |} |}.

(** A ride of 10 km by car between two villages. *)
Definition taxiRide : State := {|
  selectedCategory := TAXI;
  pickupVillage := Some ashmoun;
  dropoffVillage := Some shatanouf;
  selectedVehicle := CAR;
  actualRoadDist := 10;
  isCalculatingDist := false
|}.

(** A pharmacy order delivered 2 km away by motorcycle. *)
Definition pharmacyRun : State := {|
  selectedCategory := PHARMACY;
  pickupVillage := None;
  dropoffVillage := Some shatanouf;
  selectedVehicle := MOTORCYCLE;
  actualRoadDist := 2;
  isCalculatingDist := false
|}.

(** A food order fetched 3.5 km away, in another village. *)
Definition foodRun : State := {|
  selectedCategory := FOOD;
  pickupVillage := Some ashmoun;
  dropoffVillage := Some shatanouf;
  selectedVehicle := MOTORCYCLE;
  actualRoadDist := 7 # 2;
  isCalculatingDist := false
|}.

(** A ride inside one village, with a stale distance in the cell. *)
Definition localRide : State := {|
  selectedCategory := TAXI;
  pickupVillage := Some ashmoun;
  dropoffVillage := Some ashmoun;
  selectedVehicle := CAR;
  actualRoadDist := 99;
  isCalculatingDist := false
|}.

(** The ride form just filled in (two different villages chosen on the
    first render), before the distance service has answered. *)
Definition rideRequested : State := {|
  selectedCategory := TAXI;
  pickupVillage := Some ashmoun;
  dropoffVillage := Some shatanouf;
  selectedVehicle := MOTORCYCLE;
  actualRoadDist := actualRoadDist initialState;
  isCalculatingDist := false
|}.

(** A restaurant whose address is the name of a village, and one whose
    address is a street. *)
Definition villageGrill : Menu.Restaurant :=
  {| Menu.restaurant_id := lit "r1"; Menu.restaurant_name := lit "Grill";
     Menu.address := lit "Shatanouf";
     Menu.restaurant_pos := {| lat := 3021 # 100; lng := 3095 # 100 |} |}.

Definition streetGrill : Menu.Restaurant :=
  {| Menu.restaurant_id := lit "r2"; Menu.restaurant_name := lit "Corner";
     Menu.address := lit "12 Nile St, Shatanouf";
     Menu.restaurant_pos := {| lat := 3021 # 100; lng := 3095 # 100 |} |}.

Definition kofta : Menu.MenuItem :=
  {| Menu.item_id := lit "m1"; Menu.item_name := lit "Kofta";
     Menu.item_price := 60 |}.

Definition rice : Menu.MenuItem :=
  {| Menu.item_id := lit "m2"; Menu.item_name := lit "Rice";
     Menu.item_price := 15 |}.

(** An order waiting for offers, as [handleCreateOrder] stores it, and the
    same order once delivered by the second courier. *)
Definition openOrder : Lifecycle.Order := {|
  Lifecycle.order_id := lit "o1";
  Lifecycle.customerId := lit "u1";
  Lifecycle.category := TAXI;
  Lifecycle.status := WAITING_FOR_OFFERS;
  Lifecycle.price := 48;
  Lifecycle.distance := 10;
  Lifecycle.createdAt := 1000;
  Lifecycle.driverId := None;
  Lifecycle.driverName := None;
  Lifecycle.driverPhone := None;
  Lifecycle.driverPhoto := None;
  Lifecycle.acceptedAt := None;
  Lifecycle.rating := None;
  Lifecycle.feedback := None;
  Lifecycle.ratedAt := None
|}.

Definition deliveredOrder : Lifecycle.Order := {|
  Lifecycle.order_id := lit "o1";
  Lifecycle.customerId := lit "u1";
  Lifecycle.category := TAXI;
  Lifecycle.status := DELIVERED;
  Lifecycle.price := 55;
  Lifecycle.distance := 10;
  Lifecycle.createdAt := 1000;
  Lifecycle.driverId := Some (lit "d2");
  Lifecycle.driverName := Some (lit "Bassem");
  Lifecycle.driverPhone := Some (lit "0102");
  Lifecycle.driverPhoto := None;
  Lifecycle.acceptedAt := Some 2001%Z;
  Lifecycle.rating := None;
  Lifecycle.feedback := None;
  Lifecycle.ratedAt := None
|}.

(** Two couriers' offers on [openOrder]. *)
Definition offerA : Lifecycle.Offer := {|
  Lifecycle.offer_id := lit "f1";
  Lifecycle.orderId := lit "o1";
  Lifecycle.offer_driverId := lit "d1";
  Lifecycle.offer_driverName := lit "Adel";
  Lifecycle.offer_driverPhone := lit "0101";
  Lifecycle.offer_driverPhoto := Some (lit "a.png");
  Lifecycle.driverRating := None;
  Lifecycle.offer_price := 40
|}.

Definition offerB : Lifecycle.Offer := {|
  Lifecycle.offer_id := lit "f2";
  Lifecycle.orderId := lit "o1";
  Lifecycle.offer_driverId := lit "d2";
  Lifecycle.offer_driverName := lit "Bassem";
  Lifecycle.offer_driverPhone := lit "0102";
  Lifecycle.offer_driverPhoto := None;
  Lifecycle.driverRating := Some (9 # 2)%Q;
  Lifecycle.offer_price := 55
|}.

(** The [orders] collection holding the one order. *)
Definition ordersWith (o : Lifecycle.Order) : gmap JSString Lifecycle.Order :=
  {[ Lifecycle.order_id o := o ]}.

(** The rating form as filled in for a first and for a second rating. *)
Definition praise : Lifecycle.RatingForm :=
  {| Lifecycle.form_rating := 5; Lifecycle.form_feedback := lit " great ";
     Lifecycle.isSubmitting := false |}.

Definition complaint : Lifecycle.RatingForm :=
  {| Lifecycle.form_rating := 1; Lifecycle.form_feedback := lit "late";
     Lifecycle.isSubmitting := false |}.

End Scenario.

(* ===================================================================== *)
(** ** The menu view: its distance lookup and its confirm button *)
(* ===================================================================== *)

Module MenuControls.

Import Menu.

(** The [roadDist] and [isCalculating] cells of the menu view. *)
Record Lookup := {
  roadDist : Q;
  isCalculating : bool
}.

(** Their [useState] initial values. *)
Definition initialLookup : Lookup :=
  {| roadDist := 0; isCalculating := false |}.

(** The effect of the menu view that asks for the road distance from the
    restaurant to the chosen village, run to the settlement of its
    promise ([Some d]: resolved with [res.distance = d]; [None]:
    rejected).  With no village chosen nothing is asked. *)
Definition menuDistanceEffect (res : option Q)
    (currentVillage : option Village) (l : Lookup) : Lookup :=
  match currentVillage with
  | Some _ =>
      match res with
      | Some d => {| roadDist := d; isCalculating := false |}
      | None => {| roadDist := roadDist l; isCalculating := false |}
      end
  | None => l
  end.

(** [!s] on a string. *)
Definition isEmptyString (s : JSString) : bool :=
  match s with
  | [] => true
  | _ :: _ => false
  end.

(** The [disabled] attribute of the confirm button:
    [(cart.length === 0 && !customItemNote.trim()) || !currentVillage
     || isCalculating]. *)
Definition confirmDisabled (cart : list CartItem) (customItemNote : JSString)
    (currentVillage : option Village) (calculating : bool) : bool :=
  ((length cart =? 0)%nat && isEmptyString (trim customItemNote))
  || match currentVillage with Some _ => false | None => true end
  || calculating.

(** What one id's counter should show after a sequence of clicks: [+] adds
    one, [-] takes one off but never goes below zero.  This is the
    reference the cart is compared with. *)
Definition tallyStep (k : JSString) (n : Z) (c : Click) : Z :=
  match c with
  | Plus item => if bool_decide (item_id item = k) then (n + 1)%Z else n
  | Minus k' => if bool_decide (k' = k) then Z.max 0 (n - 1) else n
  end.

Definition tally (k : JSString) (cs : list Click) : Z :=
  fold_left (tallyStep k) cs 0%Z.



End MenuControls.

(* ===================================================================== *)
(** ** Submitting an order *)
(* ===================================================================== *)

Module Submission.

(** Modelled from the spec: the [pickup] / [dropoff] value of an order
    ([{ address, lat, lng, villageName }], spec section 3) and the fields
    of [User] that [handleCreateOrder] reads. *)
Record Location := {
  loc_address : JSString;
  loc_lat : Q;
  loc_lng : Q;
  villageName : JSString
}.

Record User := {
  user_id : JSString;
  user_phone : JSString;
  user_name : JSString
}.

(** The [extraData] argument of [handleCreateOrder]: an object whose keys
    are those the two callers pass; [None] is an absent key. *)
Record ExtraData := {
  extra_restaurantId : option JSString;
  extra_restaurantName : option JSString;
  extra_foodItems : option (list Menu.CartItem);
  extra_price : option Q;
  extra_distance : option Q;
  extra_deliveryVillage : option Village;
  extra_customNote : option JSString;
  extra_pickup : option Location
}.

(** The default argument [{}]. *)
Definition noExtra : ExtraData := {|
  extra_restaurantId := None;
  extra_restaurantName := None;
  extra_foodItems := None;
  extra_price := None;
  extra_distance := None;
  extra_deliveryVillage := None;
  extra_customNote := None;
  extra_pickup := None
|}.

(** The text cells of the order forms that [handleCreateOrder] reads or
    resets, with the cells of the custom-restaurant dialog. *)
Record Form := {
  pickupNote : JSString;
  dropoffNote : JSString;
  medsList : JSString;
  prescriptionImg : option JSString;
  showCustomRestForm : bool;
  customRestName : JSString;
  customRestOrder : JSString;
  customRestPickupVillage : option Village;
  isSubmitting : bool
}.

(** The object [handleCreateOrder] builds and hands to [addDoc]. *)
Record OrderData := {
  customerId : JSString;
  customerPhone : JSString;
  category : OrderCategory;
  status : OrderStatus;
  createdAt : Z;
  paymentMethod : JSString;
  pickup : option Location;
  dropoff : Location;
  requestedVehicleType : VehicleType;
  price : Q;
  distance : Q;
  pickupNotes : JSString;
  dropoffNotes : JSString;
  prescriptionImage : option JSString;
  restaurantId : option JSString;
  restaurantName : option JSString;
  foodItems : option (list Menu.CartItem);
  deliveryVillage : option Village;
  customNote : option JSString
}.

(** [{ address: v.name, lat: v.center.lat, lng: v.center.lng,
       villageName: v.name }] *)
Definition villageLocation (v : Village) : Location := {|
  loc_address := village_name v;
  loc_lat := lat (center v);
  loc_lng := lng (center v);
  villageName := village_name v
|}.

(** [const finalVillage = extraData.deliveryVillage || dropoffVillage] *)
Definition finalVillage (st : Dashboard.State) (extraData : ExtraData)
  : option Village :=
  match extra_deliveryVillage extraData with
  | Some v => Some v
  | None => Dashboard.dropoffVillage st
  end.

(** [const finalPrice = extraData.price || getEstimatedPrice()] *)
Definition finalPrice (P : Pricing) (st : Dashboard.State)
    (extraData : ExtraData) : Q :=
  orDefault (extra_price extraData) (Dashboard.getEstimatedPrice P st).

(** [extraData.customNote || ''] *)
Definition customNoteOrEmpty (extraData : ExtraData) : JSString :=
  match extra_customNote extraData with
  | Some (c :: r) => c :: r
  | _ => []
  end.

(** A key of the literal that [...extraData], spread last, sets again:
    the value of [extraData] wins when the key is present there. *)
Definition spreadOver {A : Type} (extra : option A) (base : A) : A :=
  match extra with
  | Some x => x
  | None => base
  end.

(** The literal [orderData]: the named fields first, then [...extraData],
    whose [price], [distance] and [pickup] keys, when present, replace the
    ones just computed ([pickup: x || null] is an optional location). *)
Definition orderData (P : Pricing) (now : Z) (user : User)
    (st : Dashboard.State) (form : Form) (extraData : ExtraData)
    (village : Village) : OrderData := {|
  customerId := user_id user;
  customerPhone := user_phone user;
  category := Dashboard.selectedCategory st;
  status := WAITING_FOR_OFFERS;
  createdAt := now;
  paymentMethod := lit "CASH";
  pickup :=
    spreadOver (Some <$> extra_pickup extraData)
      match Dashboard.selectedCategory st, Dashboard.pickupVillage st with
      | TAXI, Some pv => Some (villageLocation pv)
      | _, _ => extra_pickup extraData
      end;
  dropoff := villageLocation village;
  requestedVehicleType := Dashboard.selectedVehicle st;
  price := spreadOver (extra_price extraData) (finalPrice P st extraData);
  distance :=
    spreadOver (extra_distance extraData)
      (orDefault (extra_distance extraData) (Dashboard.actualRoadDist st));
  pickupNotes :=
    match Dashboard.selectedCategory st with
    | PHARMACY => medsList form
    | TAXI => pickupNote form
    | FOOD => customNoteOrEmpty extraData
    end;
  dropoffNotes := dropoffNote form;
  prescriptionImage := prescriptionImg form;
  restaurantId := extra_restaurantId extraData;
  restaurantName := extra_restaurantName extraData;
  foodItems := extra_foodItems extraData;
  deliveryVillage := extra_deliveryVillage extraData;
  customNote := extra_customNote extraData
|}.

(** How [handleCreateOrder] ends. *)
Inductive Outcome :=
| NoVillage                                   (* the first alert; nothing sent *)
| Added (doc : OrderData) (announced : Q)     (* [addDoc] resolved; the
                                                 message names [announced] *)
| Refused (doc : OrderData).                  (* [addDoc] rejected: the alert
                                                 of the [catch] branch *)

Definition setIsSubmitting (b : bool) (form : Form) : Form := {|
  pickupNote := pickupNote form;
  dropoffNote := dropoffNote form;
  medsList := medsList form;
  prescriptionImg := prescriptionImg form;
  showCustomRestForm := showCustomRestForm form;
  customRestName := customRestName form;
  customRestOrder := customRestOrder form;
  customRestPickupVillage := customRestPickupVillage form;
  isSubmitting := b
|}.

(** The five setters called after the message has been opened. *)
Definition resetAfterSubmit (form : Form) : Form := {|
  pickupNote := pickupNote form;
  dropoffNote := dropoffNote form;
  medsList := [];
  prescriptionImg := None;
  showCustomRestForm := false;
  customRestName := [];
  customRestOrder := [];
  customRestPickupVillage := customRestPickupVillage form;
  isSubmitting := isSubmitting form
|}.

(** [handleCreateOrder].  [resolves] tells whether the awaited [addDoc]
    resolves.  The document is handed to [addDoc] through
    [stripFirestore], a helper of [../utils] that is not among the
    sources: the outcome carries the object as built, before that call.
    The text of the message is not modelled, only the price it names. *)
Definition handleCreateOrder (P : Pricing) (now : Z) (resolves : bool)
    (user : User) (st : Dashboard.State) (form : Form)
    (extraData : ExtraData) : Form * Outcome :=
  match finalVillage st extraData with
  | None => (form, NoVillage)
  | Some village =>
      let doc := orderData P now user st form extraData village in
      if resolves
      then (setIsSubmitting false (resetAfterSubmit (setIsSubmitting true form)),
            Added doc (finalPrice P st extraData))
      else (setIsSubmitting false (setIsSubmitting true form), Refused doc)
  end.

(** The [onConfirmOrder] callback the dashboard gives to the menu view,
    applied to the arguments the confirm button passes: the cart, the
    grand total, the road distance, the chosen village and the note. *)
Definition menuCheckoutExtra (restaurant : Menu.Restaurant)
    (cart : list Menu.CartItem) (grandTotal : Q) (distanceKm : Q)
    (village : Village) (note : JSString) : ExtraData := {|
  extra_restaurantId := Some (Menu.restaurant_id restaurant);
  extra_restaurantName := Some (Menu.restaurant_name restaurant);
  extra_foodItems := Some cart;
  extra_price := Some grandTotal;
  extra_distance := Some distanceKm;
  extra_deliveryVillage := Some village;
  extra_customNote := Some note;
  extra_pickup := Some {|
    loc_address := Menu.restaurant_name restaurant;
    loc_lat := lat (Menu.restaurant_pos restaurant);
    loc_lng := lng (Menu.restaurant_pos restaurant);
    villageName := Menu.address restaurant
  |}
|}.

(** A click on the confirm button of the menu view: nothing happens while
    the button is disabled or no village is chosen. *)
Definition confirmMenuOrder (P : Pricing) (now : Z) (resolves : bool)
    (user : User) (st : Dashboard.State) (form : Form)
    (restaurant : Menu.Restaurant) (cart : list Menu.CartItem)
    (note : JSString) (currentVillage : option Village)
    (l : MenuControls.Lookup) : option (Form * Outcome) :=
  if MenuControls.confirmDisabled cart note currentVillage
       (MenuControls.isCalculating l)
  then None
  else
    match currentVillage with
    | None => None
    | Some village =>
        Some (handleCreateOrder P now resolves user st form
                (menuCheckoutExtra restaurant cart
                   (Menu.finalEstimatedPrice P restaurant currentVillage
                      (MenuControls.roadDist l) cart)
                   (MenuControls.roadDist l) village note))
    end.

(** The object the custom-restaurant dialog passes. *)
Definition customRestaurantExtra (restName : JSString) (restVillage : Village)
    (order : JSString) (dropoffV : Village) : ExtraData := {|
  extra_restaurantId := None;
  extra_restaurantName := Some restName;
  extra_foodItems := None;
  extra_price := None;
  extra_distance := Some 0%Q;
  extra_deliveryVillage := Some dropoffV;
  extra_customNote := Some order;
  extra_pickup := Some {|
    loc_address := restName;
    loc_lat := lat (center restVillage);
    loc_lng := lng (center restVillage);
    villageName := village_name restVillage
  |}
|}.

(** How a click on the dialog's button ends. *)
Inductive DialogOutcome :=
| Incomplete                       (* the alert asking to complete the data *)
| Submitted (r : Form * Outcome).

(** The [onClick] of the dialog's button. *)
Definition submitCustomRestaurant (P : Pricing) (now : Z) (resolves : bool)
    (user : User) (st : Dashboard.State) (form : Form) : DialogOutcome :=
  match customRestName form, customRestPickupVillage form,
        Dashboard.dropoffVillage st, customRestOrder form with
  | _ :: _, Some restVillage, Some dropoffV, _ :: _ =>
      Submitted
        (handleCreateOrder P now resolves user st form
           (customRestaurantExtra (customRestName form) restVillage
              (customRestOrder form) dropoffV))
  | _, _, _, _ => Incomplete
  end.

(** The object that was handed to [addDoc], if the handler got that
    far. *)
Definition sentDoc (o : Outcome) : option OrderData :=
  match o with
  | NoVillage => None
  | Added doc _ => Some doc
  | Refused doc => Some doc
  end.

End Submission.

(* ===================================================================== *)
(** ** Cancelling, and the offers listener *)
(* ===================================================================== *)

Module Waiting.

Import Lifecycle.

(** The object literal [{ status: OrderStatus.CANCELLED }]. *)
Definition cancelFields (o : Order) : Order := {|
  order_id := order_id o;
  customerId := customerId o;
  category := category o;
  status := CANCELLED;
  price := price o;
  distance := distance o;
  createdAt := createdAt o;
  driverId := driverId o;
  driverName := driverName o;
  driverPhone := driverPhone o;
  driverPhoto := driverPhoto o;
  acceptedAt := acceptedAt o;
  rating := rating o;
  feedback := feedback o;
  ratedAt := ratedAt o
|}.

(** The [onClick] of the cancel link under the offers list: one
    [updateDoc], neither awaited nor caught, so a rejection changes
    nothing and shows nothing.  The link is rendered only for an active
    order. *)
Definition cancelOrder (a : Order) (db : gmap JSString Order)
  : gmap JSString Order :=
  match updateDoc (order_id a) cancelFields db with
  | Some db' => db'
  | None => db
  end.

(** The effect that listens to the offers of the active order: it
    subscribes only while the order has an id and waits for offers, and
    then [incomingOffers] becomes the documents of [offers] whose
    [orderId] is the order's id; otherwise the cell keeps what it held. *)
Definition offersEffect (activeOrder : option Order) (offers : list Offer)
    (incomingOffers : list Offer) : list Offer :=
  match activeOrder with
  | Some a =>
      if negb (bool_decide (order_id a = []))
         && bool_decide (status a = WAITING_FOR_OFFERS)
      then filter (fun f => orderId f = order_id a) offers
      else incomingOffers
  | None => incomingOffers
  end.

End Waiting.

(* ===================================================================== *)
(** ** Concrete data for the order forms *)
(* ===================================================================== *)

Module Cases.

Definition customer : Submission.User :=
  {| Submission.user_id := lit "u1"; Submission.user_phone := lit "0100";
     Submission.user_name := lit "Mona" |}.

(** The forms as the first render leaves them. *)
Definition blankForm : Submission.Form := {|
  Submission.pickupNote := [];
  Submission.dropoffNote := [];
  Submission.medsList := [];
  Submission.prescriptionImg := None;
  Submission.showCustomRestForm := false;
  Submission.customRestName := [];
  Submission.customRestOrder := [];
  Submission.customRestPickupVillage := None;
  Submission.isSubmitting := false
|}.

(** The custom-restaurant dialog filled in. *)
Definition dialogForm : Submission.Form := {|
  Submission.pickupNote := [];
  Submission.dropoffNote := lit "blue gate";
  Submission.medsList := [];
  Submission.prescriptionImg := None;
  Submission.showCustomRestForm := true;
  Submission.customRestName := lit "Koshary";
  Submission.customRestOrder := lit "2 large";
  Submission.customRestPickupVillage := Some Scenario.ashmoun;
  Submission.isSubmitting := false
|}.

(** The dashboard while food is ordered for Shatanouf, 4 km shown. *)
Definition foodForm : Dashboard.State := {|
  Dashboard.selectedCategory := FOOD;
  Dashboard.pickupVillage := None;
  Dashboard.dropoffVillage := Some Scenario.shatanouf;
  Dashboard.selectedVehicle := MOTORCYCLE;
  Dashboard.actualRoadDist := 4;
  Dashboard.isCalculatingDist := false
|}.

(** A cart with two koftas and one rice. *)
Definition lunch : list Menu.CartItem :=
  Menu.clicks
    [Menu.Plus Scenario.kofta; Menu.Plus Scenario.rice; Menu.Plus Scenario.kofta] [].

(** An offer a courier made for another order. *)
Definition strayOffer : Lifecycle.Offer := {|
  Lifecycle.offer_id := lit "f9";
  Lifecycle.orderId := lit "o0";
  Lifecycle.offer_driverId := lit "d9";
  Lifecycle.offer_driverName := lit "Samir";
  Lifecycle.offer_driverPhone := lit "0109";
  Lifecycle.offer_driverPhoto := None;
  Lifecycle.driverRating := None;
  Lifecycle.offer_price := 70
|}.

(** The menu view once the distance service has answered 3.5 km. *)
Definition answered : MenuControls.Lookup :=
  MenuControls.menuDistanceEffect (Some (7 # 2)%Q) (Some Scenario.shatanouf)
    MenuControls.initialLookup.

End Cases.

(* ===================================================================== *)
(** ** Rounding *)
(* ===================================================================== *)

Section Rounding.

Local Open Scope Q_scope.

Lemma Qfloor_plus_half (z : Z) : Qfloor (inject_Z z + (1 # 2)) = z.
Proof.
  unfold Qfloor, Qplus, inject_Z; simpl.
  rewrite Z.mul_1_r.
  symmetry; apply (Z.div_unique_pos _ _ _ 1); lia.
Qed.

Lemma Math_round_inject_Z (z : Z) : Math_round (inject_Z z) = inject_Z z.
Proof. unfold Math_round. now rewrite Qfloor_plus_half. Qed.

Lemma Math_round_mono (x y : Q) : x <= y -> Math_round x <= Math_round y.
Proof.
  intros Hxy. unfold Math_round.
  rewrite <- Zle_Qle. apply Qfloor_resp_le.
  apply Qplus_le_l. exact Hxy.
Qed.

#[global] Instance Math_round_proper : Proper (Qeq ==> Qeq) Math_round.
Proof.
  intros x y Hxy. unfold Math_round.
  assert (Hs : x + (1 # 2) == y + (1 # 2)) by now rewrite Hxy.
  now rewrite (Qfloor_comp _ _ Hs).
Qed.

Lemma Math_round_isInteger (m : Q) : isInteger m -> Math_round m == m.
Proof.
  unfold isInteger. intros Hm.
  rewrite <- Hm at 1. rewrite Math_round_inject_Z. exact Hm.
Qed.

Lemma Math_max_l (a b : Q) : b <= a -> Math_max a b == a.
Proof.
  intros Hba. unfold Math_max.
  destruct (Qle_bool a b) eqn:E; [|reflexivity].
  apply Qle_bool_iff in E. now apply Qle_antisym.
Qed.

Lemma Math_max_r (a b : Q) : a <= b -> Math_max a b == b.
Proof.
  intros Hab. unfold Math_max.
  apply Qle_bool_iff in Hab. now rewrite Hab.
Qed.

(** Rounding commutes with the floor of a whole minimum: flooring the
    rounded amount, as the code does, and rounding the floored amount
    give the same price. *)
Lemma Math_max_round (m x : Q) :
  isInteger m -> Math_max m (Math_round x) == Math_round (Math_max m x).
Proof.
  intros Hm.
  destruct (Qlt_le_dec x m) as [Hlt | Hle].
  - assert (Hxm : x <= m) by now apply Qlt_le_weak.
    rewrite (Math_max_l m x Hxm), (Math_round_isInteger m Hm).
    apply Math_max_l.
    rewrite <- (Math_round_isInteger m Hm). now apply Math_round_mono.
  - rewrite (Math_max_r m x Hle).
    apply Math_max_r.
    rewrite <- (Math_round_isInteger m Hm). now apply Math_round_mono.
Qed.

End Rounding.

(* ===================================================================== *)
(** ** The price estimate *)
(* ===================================================================== *)

Section Estimate.

Import Dashboard.
Local Open Scope Q_scope.

(** The last rule of [getEstimatedPrice] as the code writes it: the
    rounded fare, floored by [minPrice]. *)
Lemma getEstimatedPrice_taxi_cross (P : Pricing) (st : State) (dropoff : Village) :
  dropoffVillage st = Some dropoff ->
  selectedCategory st = TAXI ->
  sameVillageId (pickupVillage st) dropoff = false ->
  getEstimatedPrice P st =
    Math_max (minPrice P)
      (Math_round ((basePrice P + actualRoadDist st * pricePerKm P)
                   * orDefault (multipliers P (selectedVehicle st)) 1)).
Proof.
  intros Hd Hc Hx. unfold getEstimatedPrice.
  rewrite Hd, Hc, Hx. reflexivity.
Qed.

(** The pharmacy rule as the code writes it. *)
Lemma getEstimatedPrice_pharmacy (P : Pricing) (st : State) (dropoff : Village) :
  dropoffVillage st = Some dropoff ->
  selectedCategory st = PHARMACY ->
  getEstimatedPrice P st =
    Math_max (deliveryBasePrice P)
      (Math_round ((deliveryBasePrice P + actualRoadDist st * pricePerKm P)
                   * orDefault (multipliers P (selectedVehicle st)) 1)).
Proof.
  intros Hd Hc. unfold getEstimatedPrice.
  rewrite Hd, Hc. reflexivity.
Qed.

(** C4. A ride (category TAXI) between two different villages, or with no
    pickup village, is priced at
    round(max(minPrice, (basePrice + distance * pricePerKm) * multiplier))
    for every distance and every vehicle, the multiplier being the
    vehicle's table entry or 1; [minPrice] is a whole amount.  With the
    scenario's table, 10 km by car cost 48. *)
Theorem taxi_cross_village_estimate :
  (forall (P : Pricing) (st : State) (dropoff : Village),
      dropoffVillage st = Some dropoff ->
      selectedCategory st = TAXI ->
      sameVillageId (pickupVillage st) dropoff = false ->
      isInteger (minPrice P) ->
      getEstimatedPrice P st ==
        Math_round
          (Math_max (minPrice P)
             ((basePrice P + actualRoadDist st * pricePerKm P)
              * orDefault (multipliers P (selectedVehicle st)) 1)))
  /\ getEstimatedPrice Scenario.pricing Scenario.taxiRide == 48.
Proof.
  split.
  - intros P st dropoff Hd Hc Hx Hm.
    rewrite (getEstimatedPrice_taxi_cross P st dropoff Hd Hc Hx).
    now apply Math_max_round.
  - vm_compute. reflexivity.
Qed.

Lemma taxi_cross_village_estimate_witness :
  getEstimatedPrice Scenario.pricing Scenario.taxiRide ==
    Math_round (Math_max 15 ((10 + 10 * 3) * (12 # 10))).
Proof.
  apply (proj1 taxi_cross_village_estimate
           Scenario.pricing Scenario.taxiRide Scenario.shatanouf).
  - reflexivity.
  - reflexivity.
  - vm_compute. reflexivity.
  - vm_compute. reflexivity.
Defined.

(** C5. A pharmacy order is priced at
    round(max(deliveryBasePrice,
              (deliveryBasePrice + distance * pricePerKm) * multiplier))
    for every distance and every vehicle; [deliveryBasePrice] is a whole
    amount.  With the scenario's table, 2 km by motorcycle cost 26. *)
Theorem pharmacy_estimate :
  (forall (P : Pricing) (st : State) (dropoff : Village),
      dropoffVillage st = Some dropoff ->
      selectedCategory st = PHARMACY ->
      isInteger (deliveryBasePrice P) ->
      getEstimatedPrice P st ==
        Math_round
          (Math_max (deliveryBasePrice P)
             ((deliveryBasePrice P + actualRoadDist st * pricePerKm P)
              * orDefault (multipliers P (selectedVehicle st)) 1)))
  /\ getEstimatedPrice Scenario.pricing Scenario.pharmacyRun == 26.
Proof.
  split.
  - intros P st dropoff Hd Hc Hm.
    rewrite (getEstimatedPrice_pharmacy P st dropoff Hd Hc).
    now apply Math_max_round.
  - vm_compute. reflexivity.
Qed.

Lemma pharmacy_estimate_witness :
  getEstimatedPrice Scenario.pricing Scenario.pharmacyRun ==
    Math_round (Math_max 20 ((20 + 2 * 3) * 1)).
Proof.
  apply (proj1 pharmacy_estimate
           Scenario.pricing Scenario.pharmacyRun Scenario.shatanouf).
  - reflexivity.
  - reflexivity.
  - vm_compute. reflexivity.
Defined.

(** Where the whole-amount side condition of C4 and C5 comes from: the
    code floors after rounding, so a fractional minimum is returned as it
    is, while rounding last would round it too. *)
Remark fractional_minimum_is_not_rounded :
  Math_max (31 # 2) (Math_round 10) == 31 # 2
  /\ Math_round (Math_max (31 # 2) 10) == 16.
Proof. split; vm_compute; reflexivity. Qed.

(** C6. A food order whose pickup and drop-off villages differ is priced
    at exactly round(distance * foodOutsidePricePerKm), by
    [getEstimatedPrice] and by the menu view's [getDeliveryPrice], for
    every distance; no floor is applied: at distance 0 both give 0, below
    every positive [sameVillagePrice], [minPrice] and
    [deliveryBasePrice]. *)
Theorem food_cross_village_price :
  (forall (P : Pricing) (st : State) (dropoff : Village),
      dropoffVillage st = Some dropoff ->
      selectedCategory st = FOOD ->
      sameVillageId (pickupVillage st) dropoff = false ->
      getEstimatedPrice P st =
        Math_round (actualRoadDist st * foodOutsidePricePerKm P))
  /\ (forall (P : Pricing) (r : Menu.Restaurant) (v : Village) (roadDist : Q),
        Menu.address r <> village_name v ->
        Menu.getDeliveryPrice P r (Some v) roadDist =
          Math_round (roadDist * foodOutsidePricePerKm P))
  /\ (forall (P : Pricing),
        0 < sameVillagePrice P -> 0 < minPrice P -> 0 < deliveryBasePrice P ->
        exists d : Q,
          0 <= d
          /\ Math_round (d * foodOutsidePricePerKm P) < sameVillagePrice P
          /\ Math_round (d * foodOutsidePricePerKm P) < minPrice P
          /\ Math_round (d * foodOutsidePricePerKm P) < deliveryBasePrice P).
Proof.
  split; [|split].
  - intros P st dropoff Hd Hc Hx. unfold getEstimatedPrice.
    rewrite Hd, Hc, Hx. reflexivity.
  - intros P r v roadDist Hne. unfold Menu.getDeliveryPrice.
    rewrite bool_decide_eq_false_2 by exact Hne. reflexivity.
  - intros P Hs Hm Hb. exists 0. split; [apply Qle_refl|].
    assert (H0 : Math_round (0 * foodOutsidePricePerKm P) == 0).
    { rewrite Qmult_0_l. reflexivity. }
    rewrite H0. auto.
Qed.

(** C7. A ride whose pickup and drop-off villages have the same id costs
    [sameVillagePrice], whatever the vehicle and the distance. *)
Theorem taxi_same_village_flat_fee
    (P : Pricing) (pickup dropoff : Village)
    (vehicle : VehicleType) (dist : Q) (calculating : bool) :
  village_id pickup = village_id dropoff ->
  getEstimatedPrice P
    {| selectedCategory := TAXI;
       pickupVillage := Some pickup;
       dropoffVillage := Some dropoff;
       selectedVehicle := vehicle;
       actualRoadDist := dist;
       isCalculatingDist := calculating |}
  = sameVillagePrice P.
Proof.
  intros Hid. unfold getEstimatedPrice, sameVillageId; simpl.
  rewrite bool_decide_eq_true_2 by exact Hid. reflexivity.
Qed.

Lemma food_cross_village_price_witness :
  getEstimatedPrice Scenario.pricing Scenario.foodRun
  = Math_round ((7 # 2) * 3)
  /\ Menu.getDeliveryPrice Scenario.pricing Scenario.streetGrill
       (Some Scenario.shatanouf) (7 # 2)
     = Math_round ((7 # 2) * 3)
  /\ exists d : Q,
       0 <= d /\ Math_round (d * 3) < 25 /\ Math_round (d * 3) < 15
       /\ Math_round (d * 3) < 20.
Proof.
  destruct food_cross_village_price as (Hestimate & Hdelivery & Hfloor).
  split; [|split].
  - apply (Hestimate Scenario.pricing Scenario.foodRun Scenario.shatanouf).
    + reflexivity.
    + reflexivity.
    + vm_compute. reflexivity.
  - apply (Hdelivery Scenario.pricing Scenario.streetGrill Scenario.shatanouf).
    vm_compute. discriminate.
  - apply (Hfloor Scenario.pricing); vm_compute; reflexivity.
Defined.

Lemma taxi_same_village_flat_fee_witness :
  getEstimatedPrice Scenario.pricing Scenario.localRide = 25.
Proof.
  apply (taxi_same_village_flat_fee Scenario.pricing
           Scenario.ashmoun Scenario.ashmoun CAR 99 false).
  reflexivity.
Defined.

(** C9, as the code has it.  [getEstimatedPrice] checks nothing about the
    distance and raises nothing: every call returns a number, for a
    negative distance too.  The distance it reads is the [actualRoadDist]
    cell, which a failed lookup leaves as it was: on a form whose cell
    still holds the initial 0, the estimate after the failure is the one
    for distance 0. *)
Theorem estimate_never_rejects :
  (forall (P : Pricing) (st : State),
      callGetEstimatedPrice P st = Returned (getEstimatedPrice P st))
  /\ (forall (P : Pricing) (st : State),
        actualRoadDist st = 0 ->
        actualRoadDist (distanceEffect None st) = 0
        /\ getEstimatedPrice P (distanceEffect None st) = getEstimatedPrice P st).
Proof.
  split; [reflexivity|].
  intros P [cat pick drop veh dist calc] Hz; simpl in Hz; subst dist.
  unfold distanceEffect; simpl.
  destruct pick as [p|], drop as [d|]; simpl; try (split; reflexivity).
  - case_bool_decide; simpl; split; reflexivity.
  - case_bool_decide; simpl; split; reflexivity.
Qed.

Lemma estimate_never_rejects_witness :
  actualRoadDist (distanceEffect None Scenario.rideRequested) = 0
  /\ getEstimatedPrice Scenario.pricing (distanceEffect None Scenario.rideRequested)
     = getEstimatedPrice Scenario.pricing Scenario.rideRequested.
Proof.
  apply (proj2 estimate_never_rejects Scenario.pricing Scenario.rideRequested).
  reflexivity.
Defined.

(** C9, as the spec words it, fails.  A ride form with a distance of -5 is
    priced (at the floor, 15) instead of being rejected; and when the
    lookup for a freshly filled form fails, the form is priced like a ride
    of 0 km. *)
Lemma estimate_accepts_bad_distance :
  let negative := setActualRoadDist (-5) Scenario.rideRequested in
  let unknown := distanceEffect None Scenario.rideRequested in
  (actualRoadDist negative < 0
   /\ callGetEstimatedPrice Scenario.pricing negative = Returned 15
   /\ callGetEstimatedPrice Scenario.pricing negative <> ConfigurationError)
  /\ (callGetEstimatedPrice Scenario.pricing unknown
        = callGetEstimatedPrice Scenario.pricing
            (setActualRoadDist 0 Scenario.rideRequested)
      /\ callGetEstimatedPrice Scenario.pricing unknown = Returned 15
      /\ callGetEstimatedPrice Scenario.pricing unknown <> ConfigurationError)
  /\ ~ (forall (P : Pricing) (st : State),
          actualRoadDist st < 0 ->
          callGetEstimatedPrice P st = ConfigurationError).
Proof.
  cbv zeta. repeat split; try (vm_compute; reflexivity); try discriminate.
  intros Hall.
  specialize (Hall Scenario.pricing (setActualRoadDist (-5) Scenario.rideRequested)).
  discriminate Hall. vm_compute. reflexivity.
Qed.

End Estimate.

(* ===================================================================== *)
(** ** The menu view: delivery price and cart *)
(* ===================================================================== *)

Section MenuView.

Import Menu.
Local Open Scope Q_scope.

(** C8. In the menu view the same-village case is decided by comparing
    the restaurant's [address] string with the chosen village's [name]:
    when they are equal the delivery costs [sameVillagePrice] whatever the
    distance, and when they differ the distance rule applies. *)
Theorem food_same_village_by_name
    (P : Pricing) (r : Restaurant) (v : Village) (roadDist : Q) :
  (address r = village_name v ->
     getDeliveryPrice P r (Some v) roadDist = sameVillagePrice P)
  /\ (address r <> village_name v ->
       getDeliveryPrice P r (Some v) roadDist =
         Math_round (roadDist * foodOutsidePricePerKm P)).
Proof.
  unfold getDeliveryPrice. split; intros H.
  - rewrite bool_decide_eq_true_2 by exact H. reflexivity.
  - rewrite bool_decide_eq_false_2 by exact H. reflexivity.
Qed.

(** *** The cart *)

Lemma findItem_Some (k : JSString) (l : list CartItem) (i : CartItem) :
  findItem k l = Some i -> i ∈ l /\ id i = k.
Proof.
  unfold findItem. intros H. apply List.find_some in H as [Hin Hk].
  split; [now apply list_elem_of_In | now apply bool_decide_eq_true in Hk].
Qed.

Lemma findItem_None (k : JSString) (l : list CartItem) :
  findItem k l = None -> k ∉ id <$> l.
Proof.
  unfold findItem. intros H Hin.
  apply list_elem_of_fmap in Hin as (i & -> & Hi).
  apply list_elem_of_In in Hi.
  pose proof (List.find_none _ _ H i Hi) as Hf.
  now apply bool_decide_eq_false in Hf.
Qed.

Lemma findItem_is_Some (k : JSString) (l : list CartItem) :
  k ∈ id <$> l -> is_Some (findItem k l).
Proof.
  intros Hin. destruct (findItem k l) eqn:E; [eauto|].
  now apply findItem_None in E.
Qed.

(** Looking an id up after a pass that keeps every id. *)
Lemma findItem_fmap (k : JSString) (f : CartItem -> CartItem) (l : list CartItem) :
  (forall i, id (f i) = id i) ->
  findItem k (f <$> l) = f <$> findItem k l.
Proof.
  intros Hf. unfold findItem.
  induction l as [|j l IH]; [reflexivity|]. simpl.
  rewrite Hf. destruct (bool_decide (id j = k)); [reflexivity | exact IH].
Qed.

Lemma ids_fmap (f : CartItem -> CartItem) (l : list CartItem) :
  (forall i, id (f i) = id i) -> id <$> (f <$> l) = id <$> l.
Proof.
  intros Hf. rewrite <- list_fmap_compose.
  apply list_fmap_ext. intros _ i _. apply Hf.
Qed.

Lemma NoDup_ids_filter (P : CartItem -> Prop) `{!forall i, Decision (P i)}
    (l : list CartItem) :
  NoDup (id <$> l) -> NoDup (id <$> filter P l).
Proof.
  induction l as [|j l IH]; [trivial|].
  rewrite fmap_cons, NoDup_cons. intros [Hj Hl].
  rewrite filter_cons. destruct (decide (P j)); [|auto].
  rewrite fmap_cons, NoDup_cons. split; [|auto].
  intros Hin. apply Hj.
  apply list_elem_of_fmap in Hin as (i & Hi & Hin).
  apply list_elem_of_filter in Hin as [_ Hin].
  apply list_elem_of_fmap. eauto.
Qed.

Lemma increment_id (k : JSString) (i : CartItem) :
  id (if bool_decide (id i = k) then withQuantity (quantity i + 1) i else i) = id i.
Proof. now destruct (bool_decide (id i = k)). Qed.

Lemma decrement_id (k : JSString) (i : CartItem) :
  id (if bool_decide (id i = k)
      then withQuantity (Z.max 0 (quantity i - 1)) i else i) = id i.
Proof. now destruct (bool_decide (id i = k)). Qed.

Lemma addToCart_ok (item : MenuItem) (cart : list CartItem) :
  cartOk cart -> cartOk (addToCart item cart).
Proof.
  intros [Hq Hd]. unfold addToCart.
  destruct (findItem (item_id item) cart) eqn:E.
  - split.
    + apply Forall_fmap. eapply Forall_impl; [exact Hq|].
      intros i Hi; simpl in *. destruct (bool_decide _); simpl; lia.
    + rewrite ids_fmap; [exact Hd | apply increment_id].
  - apply findItem_None in E. split.
    + apply Forall_app. split; [exact Hq|].
      constructor; [simpl; lia | constructor].
    + rewrite fmap_app. apply NoDup_app. split; [exact Hd|].
      split; [|apply NoDup_singleton].
      intros x Hx Hx'. apply list_elem_of_singleton in Hx'. now subst x.
Qed.

Lemma removeFromCart_ok (k : JSString) (cart : list CartItem) :
  cartOk cart -> cartOk (removeFromCart k cart).
Proof.
  intros [_ Hd]. unfold removeFromCart. split.
  - apply Forall_forall. intros i Hi.
    now apply list_elem_of_filter in Hi as [Hpos _].
  - apply NoDup_ids_filter.
    rewrite ids_fmap; [exact Hd | apply decrement_id].
Qed.

Lemma clicks_ok (cs : list Click) (cart : list CartItem) :
  cartOk cart -> cartOk (clicks cs cart).
Proof.
  unfold clicks. revert cart.
  induction cs as [|c cs IH]; intros cart Hok; [exact Hok|].
  simpl. apply IH. destruct c; [now apply addToCart_ok | now apply removeFromCart_ok].
Qed.

(** [+] on an id already in the cart. *)
Lemma addToCart_existing (item : MenuItem) (cart : list CartItem) :
  item_id item ∈ id <$> cart ->
  length (addToCart item cart) = length cart
  /\ id <$> addToCart item cart = id <$> cart
  /\ shownQuantity (item_id item) (addToCart item cart)
     = (shownQuantity (item_id item) cart + 1)%Z.
Proof.
  intros Hin. destruct (findItem_is_Some _ _ Hin) as [i Hi].
  pose proof (findItem_Some _ _ _ Hi) as [_ Hid].
  unfold addToCart, shownQuantity. rewrite Hi.
  split; [apply length_fmap|].
  split; [apply ids_fmap, increment_id|].
  rewrite findItem_fmap by apply increment_id.
  rewrite Hi. simpl. now rewrite bool_decide_eq_true_2 by exact Hid.
Qed.

(** [+] on an id not in the cart. *)
Lemma addToCart_fresh (item : MenuItem) (cart : list CartItem) :
  item_id item ∉ id <$> cart ->
  addToCart item cart =
    cart ++ [ {| id := item_id item; name := item_name item;
                 price := item_price item; quantity := 1 |} ].
Proof.
  intros Hnin. unfold addToCart.
  destruct (findItem (item_id item) cart) eqn:E; [|reflexivity].
  exfalso. apply Hnin. apply findItem_Some in E as [Hin Hid].
  apply list_elem_of_fmap. eauto.
Qed.

(** [-] on an item with more than one unit. *)
Lemma removeFromCart_decrements (k : JSString) (cart : list CartItem) :
  (1 < shownQuantity k cart)%Z ->
  shownQuantity k (removeFromCart k cart) = (shownQuantity k cart - 1)%Z.
Proof.
  unfold shownQuantity, removeFromCart, findItem.
  induction cart as [|j cart IH]; simpl; [lia|].
  destruct (bool_decide (id j = k)) eqn:E.
  - intros Hq. rewrite filter_cons_True by (simpl; lia).
    simpl. rewrite E. simpl. lia.
  - intros Hq. rewrite filter_cons.
    destruct (decide (0 < quantity j)%Z); [|now apply IH].
    simpl. rewrite E. now apply IH.
Qed.

(** [-] on an item with one unit left. *)
Lemma removeFromCart_drops (k : JSString) (cart : list CartItem) :
  NoDup (id <$> cart) ->
  shownQuantity k cart = 1%Z ->
  k ∉ id <$> removeFromCart k cart.
Proof.
  unfold shownQuantity, removeFromCart, findItem.
  induction cart as [|j cart IH]; simpl; [lia|].
  rewrite NoDup_cons. intros [Hj Hd].
  destruct (bool_decide (id j = k)) eqn:E.
  - intros Hq. apply bool_decide_eq_true in E.
    rewrite filter_cons_False by (simpl; lia).
    intros Hin. apply Hj.
    apply list_elem_of_fmap in Hin as (i & Hi & Hin).
    apply list_elem_of_filter in Hin as [_ Hin].
    apply list_elem_of_fmap in Hin as (i' & -> & Hin).
    rewrite decrement_id in Hi.
    apply list_elem_of_fmap. exists i'. split; [congruence | exact Hin].
  - intros Hq. apply bool_decide_eq_false in E.
    rewrite filter_cons. destruct (decide (0 < quantity j)%Z); [|now apply IH].
    rewrite fmap_cons, not_elem_of_cons. split; [congruence | now apply IH].
Qed.

(** C10. Starting from the empty cart, after any sequence of [+] and [-]
    clicks every item of the cart has a positive quantity and no two items
    share an id.  [addToCart] on an id that is in the cart keeps the list
    of ids and adds one to that item's quantity; [removeFromCart] on an
    item with one unit left removes it from the cart, and on an item with
    more takes one unit off. *)
Theorem cart_invariant :
  (forall cs : list Click, cartOk (clicks cs []))
  /\ (forall (item : MenuItem) (cart : list CartItem),
        item_id item ∈ id <$> cart ->
        length (addToCart item cart) = length cart
        /\ id <$> addToCart item cart = id <$> cart
        /\ shownQuantity (item_id item) (addToCart item cart)
           = (shownQuantity (item_id item) cart + 1)%Z)
  /\ (forall (k : JSString) (cart : list CartItem),
        cartOk cart ->
        (shownQuantity k cart = 1%Z -> k ∉ id <$> removeFromCart k cart)
        /\ ((1 < shownQuantity k cart)%Z ->
            shownQuantity k (removeFromCart k cart)
            = (shownQuantity k cart - 1)%Z)).
Proof.
  split; [|split].
  - intros cs. apply clicks_ok. split; [constructor | constructor].
  - exact addToCart_existing.
  - intros k cart [_ Hd]. split.
    + now apply removeFromCart_drops.
    + apply removeFromCart_decrements.
Qed.

Lemma cart_invariant_witness :
  let cart := clicks [Plus Scenario.kofta; Plus Scenario.rice] [] in
  cartOk cart
  /\ shownQuantity (lit "m1") (addToCart Scenario.kofta cart) = 2%Z
  /\ (lit "m2" ∉ id <$> removeFromCart (lit "m2") cart)
  /\ shownQuantity (lit "m1")
       (removeFromCart (lit "m1") (addToCart Scenario.kofta cart)) = 1%Z.
Proof.
  destruct cart_invariant as (Hinv & Hadd & Hremove).
  cbv zeta.
  pose proof (Hinv [Plus Scenario.kofta; Plus Scenario.rice]) as Hok.
  split; [exact Hok|]. split; [|split].
  - apply (Hadd Scenario.kofta
             (clicks [Plus Scenario.kofta; Plus Scenario.rice] [])).
    vm_compute. apply list_elem_of_here.
  - apply (Hremove (lit "m2") _ Hok). vm_compute. reflexivity.
  - apply (Hremove (lit "m1")
             (addToCart Scenario.kofta
                (clicks [Plus Scenario.kofta; Plus Scenario.rice] []))
             (Hinv [Plus Scenario.kofta; Plus Scenario.rice; Plus Scenario.kofta])).
    vm_compute. reflexivity.
Defined.

Lemma food_same_village_by_name_witness :
  getDeliveryPrice Scenario.pricing Scenario.villageGrill
    (Some Scenario.shatanouf) 7 = 25
  /\ getDeliveryPrice Scenario.pricing Scenario.streetGrill
       (Some Scenario.shatanouf) 7 = Math_round (7 * 3).
Proof.
  split.
  - apply (proj1 (food_same_village_by_name Scenario.pricing
                    Scenario.villageGrill Scenario.shatanouf 7)).
    reflexivity.
  - apply (proj2 (food_same_village_by_name Scenario.pricing
                    Scenario.streetGrill Scenario.shatanouf 7)).
    vm_compute. discriminate.
Defined.

End MenuView.

(* ===================================================================== *)
(** ** Accepting an offer and rating an order *)
(* ===================================================================== *)

Section Handlers.

Import Lifecycle.

Implicit Types (db : gmap JSString Order) (a o : Order) (now : Z).

Lemma updateDoc_Some k (fields : Order -> Order) db o :
  db !! k = Some o -> updateDoc k fields db = Some (<[k := fields o]> db).
Proof. intros H. unfold updateDoc. now rewrite H. Qed.

Lemma updateDoc_None k (fields : Order -> Order) db :
  db !! k = None -> updateDoc k fields db = None.
Proof. intros H. unfold updateDoc. now rewrite H. Qed.

(** A write on an existing order document goes through, whatever the
    document holds. *)
Lemma handleAcceptOffer_existing now a o (offer : Offer) db :
  db !! order_id a = Some o ->
  handleAcceptOffer now (Some a) offer db
  = (<[order_id a := acceptFields now offer o]> db, Written).
Proof.
  intros H. unfold handleAcceptOffer.
  now rewrite (updateDoc_Some _ _ _ _ H).
Qed.

Lemma handleRateOrder_existing now a o (form : RatingForm) db :
  db !! order_id a = Some o ->
  handleRateOrder now (Some a) form db
  = (<[order_id a := rateFields now form o]> db, initialForm, Written).
Proof.
  intros H. unfold handleRateOrder.
  now rewrite (updateDoc_Some _ _ _ _ H).
Qed.

(** The only rejection of the model: no such document.  Nothing is
    written. *)
Lemma handleAcceptOffer_missing now a (offer : Offer) db :
  db !! order_id a = None ->
  handleAcceptOffer now (Some a) offer db = (db, Alerted).
Proof.
  intros H. unfold handleAcceptOffer.
  now rewrite (updateDoc_None _ _ _ H).
Qed.

(** The page shows the accept buttons only for a snapshot that is waiting
    for offers, and the rating form only for one that is delivered. *)
Lemma screen_OffersList a :
  screen (Some a) = OffersList <-> status a = WAITING_FOR_OFFERS.
Proof.
  unfold screen. destruct (status a); simpl; split; congruence.
Qed.

Lemma screen_RatingScreen a :
  screen (Some a) = RatingScreen <-> status a = DELIVERED.
Proof.
  unfold screen. destruct (status a); simpl; split; congruence.
Qed.

(** A rated or cancelled order is never the active order. *)
Lemma selectActiveOrder_status (all : list Order) a :
  selectActiveOrder all = Some a ->
  status a <> DELIVERED_RATED /\ status a <> CANCELLED.
Proof.
  unfold selectActiveOrder. intros H.
  apply List.find_some in H as [_ H].
  apply negb_true_iff, bool_decide_eq_false in H.
  split; intros E; apply H; rewrite E; set_solver.
Qed.

(** C3. On an order that is waiting for offers, [handleAcceptOffer]
    succeeds and leaves the order with status ACCEPTED, the offer's driver
    id, name and phone, the offer's photo (or null), [acceptedAt] set to
    the clock, and [price] set to the offer's price; the other fields are
    kept. *)
Theorem accept_offer_stamps_order now a o (offer : Offer) db :
  db !! order_id a = Some o ->
  status o = WAITING_FOR_OFFERS ->
  exists o' : Order,
    handleAcceptOffer now (Some a) offer db = (<[order_id a := o']> db, Written)
    /\ status o' = ACCEPTED
    /\ driverId o' = Some (offer_driverId offer)
    /\ driverName o' = Some (offer_driverName offer)
    /\ driverPhone o' = Some (offer_driverPhone offer)
    /\ driverPhoto o' = orNull (offer_driverPhoto offer)
    /\ acceptedAt o' = Some now
    /\ price o' = offer_price offer
    /\ (customerId o', category o', distance o', createdAt o')
       = (customerId o, category o, distance o, createdAt o)
    /\ (rating o', feedback o', ratedAt o') = (rating o, feedback o, ratedAt o).
Proof.
  intros Hdoc _. exists (acceptFields now offer o).
  split; [now apply handleAcceptOffer_existing|].
  repeat split.
Qed.

Lemma accept_offer_stamps_order_witness :
  exists o' : Order,
    handleAcceptOffer 2000 (Some Scenario.openOrder) Scenario.offerA
      (Scenario.ordersWith Scenario.openOrder)
    = (<[lit "o1" := o']> (Scenario.ordersWith Scenario.openOrder), Written)
    /\ status o' = ACCEPTED
    /\ driverId o' = Some (lit "d1")
    /\ driverName o' = Some (lit "Adel")
    /\ driverPhone o' = Some (lit "0101")
    /\ driverPhoto o' = Some (lit "a.png")
    /\ acceptedAt o' = Some 2000%Z
    /\ price o' = 40%Q
    /\ (customerId o', category o', distance o', createdAt o')
       = (lit "u1", TAXI, 10%Q, 1000%Z)
    /\ (rating o', feedback o', ratedAt o') = (None, None, None).
Proof.
  apply (accept_offer_stamps_order 2000 Scenario.openOrder Scenario.openOrder
           Scenario.offerA (Scenario.ordersWith Scenario.openOrder)).
  - vm_compute. reflexivity.
  - reflexivity.
Defined.

(** C1, as the code has it.  [handleAcceptOffer] is one unconditional
    update: on an existing order it succeeds whatever the order's status.
    Two acceptances of different offers on the same order, one after the
    other, both succeed, and the order ends as if only the later one had
    been made: status ACCEPTED with the later offer's driver fields, price
    and clock reading. *)
Theorem accept_offer_last_write_wins
    now1 now2 a1 a2 o (offer1 offer2 : Offer) db :
  order_id a1 = order_id a2 ->
  db !! order_id a1 = Some o ->
  let first := handleAcceptOffer now1 (Some a1) offer1 db in
  let second := handleAcceptOffer now2 (Some a2) offer2 first.1 in
  first = (<[order_id a1 := acceptFields now1 offer1 o]> db, Written)
  /\ second = (<[order_id a1 := acceptFields now2 offer2 o]> db, Written)
  /\ second.1 !! order_id a1 = Some (acceptFields now2 offer2 o)
  /\ driverId (acceptFields now2 offer2 o) = Some (offer_driverId offer2)
  /\ price (acceptFields now2 offer2 o) = offer_price offer2.
Proof.
  intros Hid Hdoc first second.
  assert (H1 : first = (<[order_id a1 := acceptFields now1 offer1 o]> db, Written))
    by now apply handleAcceptOffer_existing.
  assert (H2 : second = (<[order_id a1 := acceptFields now2 offer2 o]> db, Written)).
  { unfold second. rewrite H1. cbn [fst].
    rewrite (handleAcceptOffer_existing now2 a2 (acceptFields now1 offer1 o)).
    - rewrite <- Hid. now rewrite insert_insert_eq.
    - rewrite <- Hid. apply lookup_insert_eq. }
  split; [exact H1|]. split; [exact H2|].
  split; [rewrite H2; apply lookup_insert_eq|].
  split; reflexivity.
Qed.

Lemma accept_offer_last_write_wins_witness :
  let first :=
    handleAcceptOffer 2000 (Some Scenario.openOrder) Scenario.offerA
      (Scenario.ordersWith Scenario.openOrder) in
  let second :=
    handleAcceptOffer 2001 (Some Scenario.openOrder) Scenario.offerB first.1 in
  first = (<[lit "o1" := acceptFields 2000 Scenario.offerA Scenario.openOrder]>
             (Scenario.ordersWith Scenario.openOrder), Written)
  /\ second = (<[lit "o1" := acceptFields 2001 Scenario.offerB Scenario.openOrder]>
                (Scenario.ordersWith Scenario.openOrder), Written)
  /\ second.1 !! lit "o1"
     = Some (acceptFields 2001 Scenario.offerB Scenario.openOrder)
  /\ driverId (acceptFields 2001 Scenario.offerB Scenario.openOrder)
     = Some (lit "d2")
  /\ price (acceptFields 2001 Scenario.offerB Scenario.openOrder) = 55%Q.
Proof.
  apply (accept_offer_last_write_wins 2000 2001
           Scenario.openOrder Scenario.openOrder Scenario.openOrder
           Scenario.offerA Scenario.offerB
           (Scenario.ordersWith Scenario.openOrder)).
  - reflexivity.
  - vm_compute. reflexivity.
Defined.

(** C1, as the spec words it, fails.  Two clients see the same order
    waiting for offers; one accepts offer A, the other offer B.  Both calls
    succeed, the second on an order that is already ACCEPTED, and it
    replaces the first courier by the second. *)
Lemma racing_acceptances_both_succeed :
  let db0 := Scenario.ordersWith Scenario.openOrder in
  let first :=
    handleAcceptOffer 2000 (Some Scenario.openOrder) Scenario.offerA db0 in
  let second :=
    handleAcceptOffer 2001 (Some Scenario.openOrder) Scenario.offerB first.1 in
  (status <$> db0 !! lit "o1") = Some WAITING_FOR_OFFERS
  /\ first.2 = Written
  /\ (status <$> first.1 !! lit "o1") = Some ACCEPTED
  /\ (driverId <$> first.1 !! lit "o1") = Some (Some (lit "d1"))
  /\ second.2 = Written
  /\ (driverId <$> second.1 !! lit "o1") = Some (Some (lit "d2"))
  /\ (price <$> second.1 !! lit "o1") = Some 55%Q
  /\ ~ ((first.2 = Written /\ second.2 <> Written)
        \/ (first.2 <> Written /\ second.2 = Written)).
Proof.
  cbv zeta. repeat split; try (vm_compute; reflexivity).
  intros [[_ H] | [H _]]; apply H; vm_compute; reflexivity.
Qed.

(** C2, as the code has it.  [handleRateOrder] is one unconditional
    update: on an existing order it succeeds whatever the order's status,
    sets status DELIVERED_RATED, the form's rating, the trimmed feedback
    and [ratedAt], and resets the form.  A second call on the same order
    succeeds too, and the order ends as if only the later rating had been
    given.  The only guards are on the client: the rating form is shown
    for a snapshot that is DELIVERED, a rated order is never the active
    order, and a call with no active order writes nothing and reports
    nothing. *)
Theorem rate_order_last_write_wins
    now1 now2 a1 a2 o (form1 form2 : RatingForm) db :
  order_id a1 = order_id a2 ->
  db !! order_id a1 = Some o ->
  let first := handleRateOrder now1 (Some a1) form1 db in
  let second := handleRateOrder now2 (Some a2) form2 first.1.1 in
  first = (<[order_id a1 := rateFields now1 form1 o]> db, initialForm, Written)
  /\ (status (rateFields now1 form1 o) = DELIVERED_RATED
      /\ rating (rateFields now1 form1 o) = Some (form_rating form1)
      /\ feedback (rateFields now1 form1 o) = Some (trim (form_feedback form1))
      /\ ratedAt (rateFields now1 form1 o) = Some now1)
  /\ second = (<[order_id a1 := rateFields now2 form2 o]> db, initialForm, Written)
  /\ second.1.1 !! order_id a1 = Some (rateFields now2 form2 o)
  /\ (rating (rateFields now2 form2 o) = Some (form_rating form2)
      /\ feedback (rateFields now2 form2 o) = Some (trim (form_feedback form2))
      /\ ratedAt (rateFields now2 form2 o) = Some now2)
  /\ (screen (Some a1) = RatingScreen <-> status a1 = DELIVERED)
  /\ (forall (all : list Order) (a : Order),
        selectActiveOrder all = Some a -> status a <> DELIVERED_RATED)
  /\ handleRateOrder now2 None form2 second.1.1 = (second.1.1, form2, Skipped).
Proof.
  intros Hid Hdoc first second.
  assert (H1 : first
               = (<[order_id a1 := rateFields now1 form1 o]> db, initialForm, Written))
    by now apply handleRateOrder_existing.
  assert (H2 : second
               = (<[order_id a1 := rateFields now2 form2 o]> db, initialForm, Written)).
  { unfold second. rewrite H1. cbn [fst].
    rewrite (handleRateOrder_existing now2 a2 (rateFields now1 form1 o)).
    - rewrite <- Hid. now rewrite insert_insert_eq.
    - rewrite <- Hid. apply lookup_insert_eq. }
  split; [exact H1|]. split; [repeat split|].
  split; [exact H2|].
  split; [rewrite H2; apply lookup_insert_eq|].
  split; [repeat split|].
  split; [apply screen_RatingScreen|].
  split; [|reflexivity].
  intros all a Ha. now apply selectActiveOrder_status in Ha.
Qed.

Lemma rate_order_last_write_wins_witness :
  let first :=
    handleRateOrder 3000 (Some Scenario.deliveredOrder) Scenario.praise
      (Scenario.ordersWith Scenario.deliveredOrder) in
  let second :=
    handleRateOrder 3001 (Some Scenario.deliveredOrder) Scenario.complaint
      first.1.1 in
  first = (<[lit "o1" := rateFields 3000 Scenario.praise Scenario.deliveredOrder]>
             (Scenario.ordersWith Scenario.deliveredOrder), initialForm, Written)
  /\ (status (rateFields 3000 Scenario.praise Scenario.deliveredOrder)
        = DELIVERED_RATED
      /\ rating (rateFields 3000 Scenario.praise Scenario.deliveredOrder)
         = Some 5%Z
      /\ feedback (rateFields 3000 Scenario.praise Scenario.deliveredOrder)
         = Some (trim (lit " great "))
      /\ ratedAt (rateFields 3000 Scenario.praise Scenario.deliveredOrder)
         = Some 3000%Z)
  /\ second
     = (<[lit "o1" := rateFields 3001 Scenario.complaint Scenario.deliveredOrder]>
          (Scenario.ordersWith Scenario.deliveredOrder), initialForm, Written)
  /\ second.1.1 !! lit "o1"
     = Some (rateFields 3001 Scenario.complaint Scenario.deliveredOrder)
  /\ (rating (rateFields 3001 Scenario.complaint Scenario.deliveredOrder)
        = Some 1%Z
      /\ feedback (rateFields 3001 Scenario.complaint Scenario.deliveredOrder)
         = Some (trim (lit "late"))
      /\ ratedAt (rateFields 3001 Scenario.complaint Scenario.deliveredOrder)
         = Some 3001%Z)
  /\ (screen (Some Scenario.deliveredOrder) = RatingScreen
      <-> status Scenario.deliveredOrder = DELIVERED)
  /\ (forall (all : list Order) (a : Order),
        selectActiveOrder all = Some a -> status a <> DELIVERED_RATED)
  /\ handleRateOrder 3001 None Scenario.complaint second.1.1
     = (second.1.1, Scenario.complaint, Skipped).
Proof.
  apply (rate_order_last_write_wins 3000 3001
           Scenario.deliveredOrder Scenario.deliveredOrder Scenario.deliveredOrder
           Scenario.praise Scenario.complaint
           (Scenario.ordersWith Scenario.deliveredOrder)).
  - reflexivity.
  - vm_compute. reflexivity.
Defined.

(** C2, as the spec words it, fails.  A delivered order is rated 5 with
    the feedback " great ", then rated again, from a client that still
    shows it as delivered, 1 with the feedback "late".  Both calls succeed
    and the stored rating and feedback are those of the second call. *)
Lemma second_rating_overwrites_first :
  let db0 := Scenario.ordersWith Scenario.deliveredOrder in
  let first :=
    handleRateOrder 3000 (Some Scenario.deliveredOrder) Scenario.praise db0 in
  let second :=
    handleRateOrder 3001 (Some Scenario.deliveredOrder) Scenario.complaint
      first.1.1 in
  (status <$> db0 !! lit "o1") = Some DELIVERED
  /\ first.2 = Written
  /\ (status <$> first.1.1 !! lit "o1") = Some DELIVERED_RATED
  /\ (rating <$> first.1.1 !! lit "o1") = Some (Some 5%Z)
  /\ (feedback <$> first.1.1 !! lit "o1") = Some (Some (lit "great"))
  /\ second.2 = Written
  /\ (rating <$> second.1.1 !! lit "o1") = Some (Some 1%Z)
  /\ (feedback <$> second.1.1 !! lit "o1") = Some (Some (lit "late"))
  /\ (ratedAt <$> second.1.1 !! lit "o1") = Some (Some 3001%Z)
  /\ ~ (first.2 = Written /\ second.2 <> Written).
Proof.
  cbv zeta. repeat split; try (vm_compute; reflexivity).
  intros [_ H]; apply H; vm_compute; reflexivity.
Qed.

End Handlers.

(* ===================================================================== *)
(** ** More on the cart *)
(* ===================================================================== *)

Section CartArithmetic.

Import Menu MenuControls.

Implicit Types (cart : list CartItem) (k : JSString) (item : MenuItem).

Lemma withQuantity_same (i : CartItem) : withQuantity (quantity i) i = i.
Proof. now destruct i. Qed.

Lemma findItem_None_2 k cart : k ∉ id <$> cart -> findItem k cart = None.
Proof.
  intros Hnin. destruct (findItem k cart) eqn:E; [|reflexivity].
  exfalso. apply Hnin. apply findItem_Some in E as [Hin Hid].
  apply list_elem_of_fmap. eauto.
Qed.

Lemma findItem_app k cart1 cart2 :
  findItem k (cart1 ++ cart2)
  = match findItem k cart1 with
    | Some i => Some i
    | None => findItem k cart2
    end.
Proof.
  unfold findItem. induction cart1 as [|j l IH]; [reflexivity|]. simpl.
  now destruct (bool_decide (id j = k)).
Qed.

(** A [-] on an id the cart does not hold changes nothing. *)
Lemma removeFromCart_absent k cart :
  Forall (fun i => (0 < quantity i)%Z) cart ->
  k ∉ id <$> cart ->
  removeFromCart k cart = cart.
Proof.
  unfold removeFromCart. induction cart as [|j l IH]; [reflexivity|].
  intros Hq Hk. apply Forall_cons in Hq as [Hj Hq].
  rewrite fmap_cons, not_elem_of_cons in Hk. destruct Hk as [Hjk Hk].
  rewrite fmap_cons, bool_decide_eq_false_2 by congruence.
  rewrite filter_cons_True by exact Hj. f_equal. now apply IH.
Qed.

(** X1. Taking off the unit that was just added gives the cart back: on
    a cart whose quantities are positive, [removeFromCart] of an item's id
    undoes [addToCart] of that item. *)
Theorem removeFromCart_addToCart item cart :
  Forall (fun i => (0 < quantity i)%Z) cart ->
  removeFromCart (item_id item) (addToCart item cart) = cart.
Proof.
  intros Hq. unfold addToCart.
  destruct (findItem (item_id item) cart) eqn:E.
  - clear E. unfold removeFromCart.
    induction cart as [|j l IH]; [reflexivity|].
    apply Forall_cons in Hq as [Hj Hq]. rewrite !fmap_cons.
    destruct (bool_decide (id j = item_id item)) eqn:Ej; simpl.
    + rewrite Ej. replace (Z.max 0 (quantity j + 1 - 1)) with (quantity j) by lia.
      rewrite filter_cons_True by (simpl; lia).
      f_equal; [now destruct j | now apply IH].
    + rewrite Ej. rewrite filter_cons_True by exact Hj.
      f_equal. now apply IH.
  - apply findItem_None in E. unfold removeFromCart.
    rewrite fmap_app, filter_app. simpl.
    rewrite bool_decide_eq_true_2 by reflexivity.
    rewrite filter_cons_False by (simpl; lia). rewrite filter_nil, app_nil_r.
    now apply removeFromCart_absent.
Qed.

Lemma removeFromCart_addToCart_witness :
  removeFromCart (lit "m2")
    (addToCart Scenario.rice (clicks [Plus Scenario.kofta; Plus Scenario.rice] []))
  = clicks [Plus Scenario.kofta; Plus Scenario.rice] [].
Proof.
  apply (removeFromCart_addToCart Scenario.rice
           (clicks [Plus Scenario.kofta; Plus Scenario.rice] [])).
  vm_compute. repeat constructor.
Defined.

(** The counter of another id is not moved by a [+]. *)
Lemma shownQuantity_addToCart_other k item cart :
  item_id item <> k ->
  shownQuantity k (addToCart item cart) = shownQuantity k cart.
Proof.
  intros Hne. unfold addToCart, shownQuantity.
  destruct (findItem (item_id item) cart) eqn:E.
  - rewrite findItem_fmap by apply increment_id.
    destruct (findItem k cart) as [i|] eqn:Ek; [|reflexivity]. simpl.
    apply findItem_Some in Ek as [_ Hid].
    rewrite bool_decide_eq_false_2 by congruence. reflexivity.
  - rewrite findItem_app. destruct (findItem k cart); [reflexivity|].
    unfold findItem; simpl. now rewrite bool_decide_eq_false_2 by exact Hne.
Qed.

(** Nor by a [-], on a cart whose quantities are positive. *)
Lemma shownQuantity_removeFromCart_other k k' cart :
  Forall (fun i => (0 < quantity i)%Z) cart ->
  k' <> k ->
  shownQuantity k (removeFromCart k' cart) = shownQuantity k cart.
Proof.
  intros Hq Hne. unfold shownQuantity, removeFromCart, findItem.
  induction cart as [|j l IH]; [reflexivity|].
  apply Forall_cons in Hq as [Hj Hq]. rewrite fmap_cons.
  destruct (bool_decide (id j = k')) eqn:Ej.
  - apply bool_decide_eq_true in Ej.
    assert (Hjk : bool_decide (id j = k) = false)
      by (apply bool_decide_eq_false; congruence).
    rewrite filter_cons. simpl. rewrite Hjk.
    destruct (decide _); simpl; [rewrite Hjk|]; now apply IH.
  - rewrite filter_cons_True by exact Hj. simpl.
    destruct (bool_decide (id j = k)); [reflexivity | now apply IH].
Qed.

Lemma shownQuantity_absent k cart :
  k ∉ id <$> cart -> shownQuantity k cart = 0%Z.
Proof. intros H. unfold shownQuantity. now rewrite findItem_None_2. Qed.

Lemma shownQuantity_present k cart :
  cartOk cart -> k ∈ id <$> cart -> (0 < shownQuantity k cart)%Z.
Proof.
  intros [Hq _] Hin. unfold shownQuantity.
  destruct (findItem_is_Some _ _ Hin) as [i Hi]. rewrite Hi.
  apply findItem_Some in Hi as [Hi _].
  rewrite Forall_forall in Hq. now apply Hq.
Qed.

Lemma removeFromCart_ids k k' cart :
  k ∈ id <$> removeFromCart k' cart -> k ∈ id <$> cart.
Proof.
  unfold removeFromCart. intros Hin.
  apply list_elem_of_fmap in Hin as (i & -> & Hin).
  apply list_elem_of_filter in Hin as [_ Hin].
  apply list_elem_of_fmap in Hin as (j & -> & Hin).
  rewrite decrement_id. apply list_elem_of_fmap. eauto.
Qed.

(** One click moves the counter of an id as [tallyStep] says. *)
Lemma shownQuantity_click k (c : Click) cart :
  cartOk cart ->
  shownQuantity k (click c cart) = tallyStep k (shownQuantity k cart) c.
Proof.
  intros Hok. destruct c as [item | k']; simpl.
  - case_bool_decide as Hk.
    + subst k. destruct (decide (item_id item ∈ id <$> cart)) as [Hin | Hnin].
      * now apply addToCart_existing.
      * rewrite (addToCart_fresh _ _ Hnin), (shownQuantity_absent _ _ Hnin).
        unfold shownQuantity. rewrite findItem_app, (findItem_None_2 _ _ Hnin).
        unfold findItem; simpl. now rewrite bool_decide_eq_true_2.
    + now apply shownQuantity_addToCart_other.
  - case_bool_decide as Hk.
    + subst k'. destruct (decide (k ∈ id <$> cart)) as [Hin | Hnin].
      * pose proof (shownQuantity_present _ _ Hok Hin) as Hpos.
        destruct (decide (shownQuantity k cart = 1%Z)) as [H1 | H1].
        -- rewrite H1. rewrite shownQuantity_absent; [reflexivity|].
           apply removeFromCart_drops; [apply Hok | exact H1].
        -- rewrite removeFromCart_decrements by lia. lia.
      * rewrite (shownQuantity_absent _ _ Hnin).
        rewrite shownQuantity_absent; [reflexivity|].
        intros Hin. now apply removeFromCart_ids in Hin.
    + apply shownQuantity_removeFromCart_other; [apply Hok | exact Hk].
Qed.

Lemma shownQuantity_clicks k (cs : list Click) cart :
  cartOk cart ->
  shownQuantity k (clicks cs cart)
  = fold_left (tallyStep k) cs (shownQuantity k cart).
Proof.
  unfold clicks. revert cart.
  induction cs as [|c cs IH]; intros cart Hok; [reflexivity|]. simpl.
  rewrite IH.
  - now rewrite shownQuantity_click.
  - destruct c; [now apply addToCart_ok | now apply removeFromCart_ok].
Qed.

(** X2. The number shown on a menu row is the count of its clicks: after
    any sequence of clicks on an empty cart, the quantity shown for an id
    is what a counter gives that adds one at each [+] of that id and takes
    one off at each [-], stopping at zero. *)
Theorem shownQuantity_is_tally k (cs : list Click) :
  shownQuantity k (clicks cs []) = tally k cs.
Proof.
  unfold tally. rewrite shownQuantity_clicks; [reflexivity|].
  split; constructor.
Qed.

End CartArithmetic.

Section CartTotals.

Import Menu MenuControls.
Local Open Scope Q_scope.

Implicit Types (cart : list CartItem) (k : JSString) (item : MenuItem).









Lemma click_provenance (c : Click) cart (seen : list Click) :
  (forall i, i ∈ cart ->
     exists item, Plus item ∈ seen /\ id i = item_id item
                  /\ name i = item_name item /\ price i = item_price item) ->
  forall i, i ∈ click c cart ->
    exists item, Plus item ∈ seen ++ [c] /\ id i = item_id item
                 /\ name i = item_name item /\ price i = item_price item.
Proof.
  intros Hcart i Hi.
  assert (Hold : forall j, j ∈ cart ->
            exists item, Plus item ∈ seen ++ [c] /\ id j = item_id item
                         /\ name j = item_name item /\ price j = item_price item).
  { intros j Hj. destruct (Hcart j Hj) as (item & Hin & Hrest).
    exists item. split; [|exact Hrest]. apply elem_of_app. now left. }
  destruct c as [item | k']; simpl in Hi.
  - unfold addToCart in Hi. destruct (findItem (item_id item) cart).
    + apply list_elem_of_fmap in Hi as (j & -> & Hj).
      destruct (Hold j Hj) as (it & Hin & Hid & Hn & Hp). exists it.
      destruct (bool_decide (id j = item_id item)); simpl; auto.
    + apply elem_of_app in Hi as [Hi | Hi]; [now apply Hold|].
      apply list_elem_of_singleton in Hi. subst i. exists item.
      split; [|auto]. apply elem_of_app. right. apply list_elem_of_here.
  - unfold removeFromCart in Hi.
    apply list_elem_of_filter in Hi as [_ Hi].
    apply list_elem_of_fmap in Hi as (j & -> & Hj).
    destruct (Hold j Hj) as (it & Hin & Hid & Hn & Hp). exists it.
    destruct (bool_decide (id j = k')); simpl; auto.
Qed.

Lemma clicks_provenance (cs : list Click) cart (seen : list Click) :
  (forall i, i ∈ cart ->
     exists item, Plus item ∈ seen /\ id i = item_id item
                  /\ name i = item_name item /\ price i = item_price item) ->
  forall i, i ∈ clicks cs cart ->
    exists item, Plus item ∈ seen ++ cs /\ id i = item_id item
                 /\ name i = item_name item /\ price i = item_price item.
Proof.
  unfold clicks. revert cart seen.
  induction cs as [|c cs IH]; intros cart seen Hcart i Hi; simpl in Hi.
  - rewrite app_nil_r. now apply Hcart.
  - replace (seen ++ c :: cs) with ((seen ++ [c]) ++ cs)
      by now rewrite <- app_assoc.
    apply (IH (click c cart)); [|exact Hi].
    now apply click_provenance.
Qed.

(** X4. Nothing gets into the cart but what was clicked: after any
    sequence of clicks on an empty cart, every line of the cart carries
    the id, the name and the price of a menu item whose [+] is in the
    sequence. *)
Theorem cart_lines_come_from_clicks (cs : list Click) (i : CartItem) :
  i ∈ clicks cs [] ->
  exists item : MenuItem,
    Plus item ∈ cs /\ id i = item_id item
    /\ name i = item_name item /\ price i = item_price item.
Proof.
  intros Hi.
  apply (clicks_provenance cs [] [] (fun j Hj => False_ind _ (not_elem_of_nil j Hj)) i Hi).
Qed.

Lemma cart_lines_come_from_clicks_witness :
  exists item : MenuItem,
    Plus item ∈ [Plus Scenario.kofta; Minus (lit "m2"); Plus Scenario.kofta]
    /\ lit "m1" = item_id item
    /\ lit "Kofta" = item_name item /\ 60 = item_price item.
Proof.
  apply (cart_lines_come_from_clicks
           [Plus Scenario.kofta; Minus (lit "m2"); Plus Scenario.kofta]
           {| id := lit "m1"; name := lit "Kofta"; price := 60; quantity := 2 |}).
  vm_compute. apply list_elem_of_here.
Defined.

End CartTotals.

(* ===================================================================== *)
(** ** Trimmed text: the stored feedback and the confirm button *)
(* ===================================================================== *)

Section Trimming.

Implicit Types (s t : JSString).

Lemma trimStart_split s :
  exists pre, Forall (fun c => isWhiteSpace c = true) pre /\ s = pre ++ trimStart s.
Proof.
  induction s as [|c s IH]; [exists []; split; [constructor | reflexivity]|].
  simpl. destruct (isWhiteSpace c) eqn:E.
  - destruct IH as (pre & Hpre & Hs). exists (c :: pre).
    split; [now constructor | simpl; now f_equal].
  - exists []. split; [constructor | reflexivity].
Qed.

Lemma trimStart_idempotent s : trimStart (trimStart s) = trimStart s.
Proof.
  induction s as [|c s IH]; [reflexivity|]. simpl.
  destruct (isWhiteSpace c) eqn:E; [exact IH|]. simpl. now rewrite E.
Qed.

Lemma trimStart_length s : (length (trimStart s) <= length s)%nat.
Proof.
  induction s as [|c s IH]; [reflexivity|]. simpl.
  destruct (isWhiteSpace c); simpl; lia.
Qed.

Lemma trimStart_whitespace s :
  Forall (fun c => isWhiteSpace c = true) s -> trimStart s = [].
Proof.
  induction 1 as [|c s Hc _ IH]; [reflexivity|]. simpl. now rewrite Hc.
Qed.

Lemma trimEnd_split t :
  exists post, Forall (fun c => isWhiteSpace c = true) post /\ t = trimEnd t ++ post.
Proof.
  destruct (trimStart_split (reverse t)) as (pre & Hpre & Hr).
  exists (reverse pre). split; [now apply Forall_reverse|].
  unfold trimEnd. rewrite <- reverse_app, <- Hr. now rewrite reverse_involutive.
Qed.

Lemma trimEnd_idempotent t : trimEnd (trimEnd t) = trimEnd t.
Proof.
  unfold trimEnd. now rewrite reverse_involutive, trimStart_idempotent.
Qed.

(** Cutting the end of a text that has a clean start leaves the start
    clean. *)
Lemma trimStart_trimEnd t : trimStart t = t -> trimStart (trimEnd t) = trimEnd t.
Proof.
  intros Ht. destruct (trimEnd_split t) as (post & _ & Hsplit).
  destruct (trimEnd t) as [|c r] eqn:E; [reflexivity|].
  simpl. destruct (isWhiteSpace c) eqn:Ec; [|reflexivity].
  exfalso. rewrite Hsplit in Ht. simpl in Ht. rewrite Ec in Ht.
  pose proof (trimStart_length (r ++ post)) as Hlen.
  rewrite Ht in Hlen. simpl in Hlen. lia.
Qed.

(** What [trim] keeps: the text between a run of white space at the start
    and one at the end, itself with neither. *)
Lemma trim_spec s :
  exists pre post,
    s = pre ++ trim s ++ post
    /\ Forall (fun c => isWhiteSpace c = true) pre
    /\ Forall (fun c => isWhiteSpace c = true) post
    /\ trimStart (trim s) = trim s
    /\ trimEnd (trim s) = trim s.
Proof.
  destruct (trimStart_split s) as (pre & Hpre & Hs).
  destruct (trimEnd_split (trimStart s)) as (post & Hpost & Ht).
  exists pre, post. unfold trim.
  split; [now rewrite <- Ht|]. split; [exact Hpre|]. split; [exact Hpost|].
  split; [apply trimStart_trimEnd, trimStart_idempotent | apply trimEnd_idempotent].
Qed.

Lemma trim_empty_iff s :
  trim s = [] <-> Forall (fun c => isWhiteSpace c = true) s.
Proof.
  split.
  - intros He. destruct (trim_spec s) as (pre & post & Hs & Hpre & Hpost & _).
    rewrite Hs, He. apply Forall_app. split; [exact Hpre | exact Hpost].
  - intros Hall. unfold trim. now rewrite (trimStart_whitespace _ Hall).
Qed.

Lemma some_not_whitespace s :
  Exists (fun c => isWhiteSpace c = false) s
  <-> ~ Forall (fun c => isWhiteSpace c = true) s.
Proof.
  induction s as [|c s IH].
  - split; [intros H; inversion H | intros H; destruct H; constructor].
  - rewrite Exists_cons, Forall_cons, IH.
    destruct (isWhiteSpace c); split.
    + intros [H | H]; [discriminate | tauto].
    + intros H. right. intros Hs. apply H. now split.
    + intros _ [H _]. discriminate.
    + intros _. now left.
Qed.

Import Lifecycle.

(** X5. The feedback a rating stores is the typed text without the white
    space around it: after [handleRateOrder] on an existing order, the
    stored feedback [f] sits in the form's text between two runs of white
    space, starts and ends with none, and is empty when the text is all
    white space. *)
Theorem rated_feedback_is_trimmed
    (now : Z) (a o : Order) (form : RatingForm) (db : gmap JSString Order) :
  db !! order_id a = Some o ->
  exists (o' : Order) (f : JSString),
    (handleRateOrder now (Some a) form db).1.1 !! order_id a = Some o'
    /\ feedback o' = Some f
    /\ (exists pre post,
          form_feedback form = pre ++ f ++ post
          /\ Forall (fun c => isWhiteSpace c = true) pre
          /\ Forall (fun c => isWhiteSpace c = true) post)
    /\ trimStart f = f
    /\ trimEnd f = f
    /\ (Forall (fun c => isWhiteSpace c = true) (form_feedback form) -> f = []).
Proof.
  intros Hdoc. exists (rateFields now form o), (trim (form_feedback form)).
  rewrite (handleRateOrder_existing _ _ _ _ _ Hdoc). cbn [fst].
  split; [apply lookup_insert_eq|]. split; [reflexivity|].
  destruct (trim_spec (form_feedback form)) as (pre & post & Hs & Hpre & Hpost & H1 & H2).
  split; [now exists pre, post|]. split; [exact H1|]. split; [exact H2|].
  apply trim_empty_iff.
Qed.

Lemma rated_feedback_is_trimmed_witness :
  exists (o' : Order) (f : JSString),
    (handleRateOrder 3000 (Some Scenario.deliveredOrder) Scenario.praise
       (Scenario.ordersWith Scenario.deliveredOrder)).1.1 !! lit "o1" = Some o'
    /\ feedback o' = Some f
    /\ (exists pre post,
          lit " great " = pre ++ f ++ post
          /\ Forall (fun c => isWhiteSpace c = true) pre
          /\ Forall (fun c => isWhiteSpace c = true) post)
    /\ trimStart f = f
    /\ trimEnd f = f
    /\ (Forall (fun c => isWhiteSpace c = true) (lit " great ") -> f = []).
Proof.
  apply (rated_feedback_is_trimmed 3000 Scenario.deliveredOrder
           Scenario.deliveredOrder Scenario.praise
           (Scenario.ordersWith Scenario.deliveredOrder)).
  vm_compute. reflexivity.
Defined.

Import Menu MenuControls.

(** X6. When the menu order can be confirmed: the confirm button is
    enabled exactly when a village is chosen, no distance lookup is
    pending, and either the cart has a line or the note has a character
    that is not white space. *)
Theorem confirm_enabled_iff
    (cart : list CartItem) (note : JSString)
    (currentVillage : option Village) (calculating : bool) :
  confirmDisabled cart note currentVillage calculating = false
  <-> (cart <> [] \/ Exists (fun c => isWhiteSpace c = false) note)
      /\ is_Some currentVillage
      /\ calculating = false.
Proof.
  unfold confirmDisabled.
  assert (Hnote : isEmptyString (trim note) = false
                  <-> Exists (fun c => isWhiteSpace c = false) note).
  { rewrite some_not_whitespace, <- trim_empty_iff.
    destruct (trim note); simpl; split; congruence. }
  destruct currentVillage as [v|]; cycle 1.
  { rewrite orb_true_r. simpl. split; [discriminate|].
    intros (_ & [v Hv] & _). discriminate. }
  destruct calculating.
  { rewrite orb_true_r. split; [discriminate|]. intros (_ & _ & Hc). discriminate. }
  rewrite !orb_false_r. destruct cart as [|i cart]; simpl.
  - rewrite Hnote. split.
    + intros He. split; [now right|]. split; [eauto | reflexivity].
    + intros ([Hc | He] & _); [congruence | exact He].
  - split; [|reflexivity]. intros _.
    split; [now left|]. split; [eauto | reflexivity].
Qed.

End Trimming.

(* ===================================================================== *)
(** ** More on the price estimate *)
(* ===================================================================== *)

Section EstimateBounds.

Import Dashboard.
Local Open Scope Q_scope.

Lemma Math_max_ge_l (a b : Q) : a <= Math_max a b.
Proof.
  unfold Math_max. destruct (Qle_bool a b) eqn:E.
  - now apply Qle_bool_iff.
  - apply Qle_refl.
Qed.

Lemma Math_max_mono_r (a b b' : Q) : b <= b' -> Math_max a b <= Math_max a b'.
Proof.
  intros Hb. unfold Math_max.
  destruct (Qle_bool a b) eqn:E, (Qle_bool a b') eqn:E'.
  - exact Hb.
  - apply Qle_bool_iff in E. exfalso.
    assert (H : Qle_bool a b' = true)
      by (apply Qle_bool_iff; now apply Qle_trans with b).
    congruence.
  - now apply Qle_bool_iff.
  - apply Qle_refl.
Qed.

Lemma isInteger_inject_Z (z : Z) : isInteger (inject_Z z).
Proof. unfold isInteger. now rewrite Qfloor_Z. Qed.

Lemma isInteger_Math_round (x : Q) : isInteger (Math_round x).
Proof. apply isInteger_inject_Z. Qed.

Lemma isInteger_Math_max (a b : Q) :
  isInteger a -> isInteger b -> isInteger (Math_max a b).
Proof. intros Ha Hb. unfold Math_max. now destruct (Qle_bool a b). Qed.

Lemma orDefault_nonneg (x : option Q) :
  (forall q, x = Some q -> 0 <= q) -> 0 <= orDefault x 1.
Proof.
  intros Hx. destruct x as [q|]; simpl; [|discriminate].
  destruct (Qeq_bool q 0); [discriminate | now apply Hx].
Qed.

(** How the fare before rounding grows with the distance. *)
Lemma fare_mono (base rate m d1 d2 : Q) :
  0 <= rate -> 0 <= m -> d1 <= d2 ->
  (base + d1 * rate) * m <= (base + d2 * rate) * m.
Proof.
  intros Hr Hm Hd. apply Qmult_le_compat_r; [|exact Hm].
  apply Qplus_le_r. now apply Qmult_le_compat_r.
Qed.

(** X7. The two floors.  Once a drop-off village is chosen, a pharmacy
    order is never estimated below [deliveryBasePrice], and a ride that is
    not inside one village never below [minPrice], whatever the distance,
    the vehicle and the rates. *)
Theorem estimate_floors (P : Pricing) (st : State) (dropoff : Village) :
  dropoffVillage st = Some dropoff ->
  (selectedCategory st = PHARMACY ->
     deliveryBasePrice P <= getEstimatedPrice P st)
  /\ (selectedCategory st = TAXI ->
      sameVillageId (pickupVillage st) dropoff = false ->
      minPrice P <= getEstimatedPrice P st).
Proof.
  intros Hd. split.
  - intros Hc. rewrite (getEstimatedPrice_pharmacy P st dropoff Hd Hc).
    apply Math_max_ge_l.
  - intros Hc Hx. rewrite (getEstimatedPrice_taxi_cross P st dropoff Hd Hc Hx).
    apply Math_max_ge_l.
Qed.

Lemma estimate_floors_witness :
  (selectedCategory Scenario.pharmacyRun = PHARMACY ->
     20 <= getEstimatedPrice Scenario.pricing Scenario.pharmacyRun)
  /\ (selectedCategory Scenario.pharmacyRun = TAXI ->
      sameVillageId (pickupVillage Scenario.pharmacyRun) Scenario.shatanouf = false ->
      15 <= getEstimatedPrice Scenario.pricing Scenario.pharmacyRun).
Proof.
  apply (estimate_floors Scenario.pricing Scenario.pharmacyRun Scenario.shatanouf).
  reflexivity.
Defined.

(** X8. A longer way never costs less: when the two per-kilometre rates
    and the vehicle multipliers of the table are not negative, the
    estimate of a form does not decrease when its distance grows, whatever
    the category, the villages and the vehicle. *)
Theorem estimate_monotone (P : Pricing) (st : State) (d1 d2 : Q) :
  0 <= pricePerKm P ->
  0 <= foodOutsidePricePerKm P ->
  (forall v q, multipliers P v = Some q -> 0 <= q) ->
  d1 <= d2 ->
  getEstimatedPrice P (setActualRoadDist d1 st)
  <= getEstimatedPrice P (setActualRoadDist d2 st).
Proof.
  intros Hkm Hfood Hmult Hd. unfold getEstimatedPrice. simpl.
  destruct (dropoffVillage st) as [dropoff|]; [|apply Qle_refl].
  pose proof (orDefault_nonneg (multipliers P (selectedVehicle st))
                (Hmult (selectedVehicle st))) as Hm.
  destruct (bool_decide (selectedCategory st = TAXI)
            && sameVillageId (pickupVillage st) dropoff); [apply Qle_refl|].
  destruct (bool_decide (selectedCategory st = PHARMACY)).
  { apply Math_max_mono_r, Math_round_mono. now apply fare_mono. }
  destruct (bool_decide (selectedCategory st = FOOD)
            && negb (sameVillageId (pickupVillage st) dropoff)).
  { apply Math_round_mono. now apply Qmult_le_compat_r. }
  apply Math_max_mono_r, Math_round_mono. now apply fare_mono.
Qed.

Lemma estimate_monotone_witness :
  getEstimatedPrice Scenario.pricing (setActualRoadDist 2 Scenario.taxiRide)
  <= getEstimatedPrice Scenario.pricing (setActualRoadDist 10 Scenario.taxiRide).
Proof.
  apply (estimate_monotone Scenario.pricing Scenario.taxiRide 2 10).
  - vm_compute. discriminate.
  - vm_compute. discriminate.
  - intros v q. destruct v; simpl; intros [= <-]; vm_compute; discriminate.
  - vm_compute. discriminate.
Defined.

(** X9. Whole prices from a whole table: when [minPrice],
    [sameVillagePrice] and [deliveryBasePrice] are whole amounts, every
    estimate of the dashboard and every delivery price of the menu view
    is a whole amount, whatever the distance, the rates and the
    multipliers. *)
Theorem prices_are_whole (P : Pricing) :
  isInteger (minPrice P) ->
  isInteger (sameVillagePrice P) ->
  isInteger (deliveryBasePrice P) ->
  (forall st : State, isInteger (getEstimatedPrice P st))
  /\ (forall (r : Menu.Restaurant) (v : option Village) (roadDist : Q),
        isInteger (Menu.getDeliveryPrice P r v roadDist)).
Proof.
  intros Hmin Hsame Hbase. split.
  - intros st. unfold getEstimatedPrice.
    destruct (dropoffVillage st) as [dropoff|]; [|apply (isInteger_inject_Z 0)].
    destruct (_ && _); [exact Hsame|].
    destruct (bool_decide _).
    { apply isInteger_Math_max; [exact Hbase | apply isInteger_Math_round]. }
    destruct (_ && _); [apply isInteger_Math_round|].
    apply isInteger_Math_max; [exact Hmin | apply isInteger_Math_round].
  - intros r v roadDist. unfold Menu.getDeliveryPrice.
    destruct v as [v|]; [|apply (isInteger_inject_Z 0)].
    destruct (bool_decide _); [exact Hsame | apply isInteger_Math_round].
Qed.

Lemma prices_are_whole_witness :
  (forall st : State, isInteger (getEstimatedPrice Scenario.pricing st))
  /\ (forall (r : Menu.Restaurant) (v : option Village) (roadDist : Q),
        isInteger (Menu.getDeliveryPrice Scenario.pricing r v roadDist)).
Proof.
  apply (prices_are_whole Scenario.pricing); vm_compute; reflexivity.
Defined.

(** X10. Running the distance effect again with the same answer from the
    distance service changes nothing more, and the effect never touches
    the category, the villages or the vehicle. *)
Theorem distanceEffect_idempotent (res : option Q) (st : State) :
  distanceEffect res (distanceEffect res st) = distanceEffect res st
  /\ selectedCategory (distanceEffect res st) = selectedCategory st
  /\ pickupVillage (distanceEffect res st) = pickupVillage st
  /\ dropoffVillage (distanceEffect res st) = dropoffVillage st
  /\ selectedVehicle (distanceEffect res st) = selectedVehicle st.
Proof.
  destruct st as [cat pick drop veh dist calc].
  destruct pick as [p|], drop as [d|]; unfold distanceEffect; simpl;
    try (repeat split; reflexivity).
  - destruct (decide (village_id p = village_id d)) as [Hid | Hid].
    + rewrite !bool_decide_eq_true_2 by exact Hid. simpl.
      rewrite !bool_decide_eq_true_2 by exact Hid. repeat split; reflexivity.
    + rewrite !bool_decide_eq_false_2 by exact Hid.
      destruct res; simpl; rewrite !bool_decide_eq_false_2 by exact Hid;
        repeat split; reflexivity.
  - destruct cat, res; simpl; repeat split; reflexivity.
Qed.

End EstimateBounds.

(* ===================================================================== *)
(** ** The handlers and the rest of the collection *)
(* ===================================================================== *)

Section OneDocument.

Import Lifecycle Waiting.

Implicit Types (db : gmap JSString Order) (a o : Order) (now : Z).

Lemma updateDoc_frame k (fields : Order -> Order) db db' :
  updateDoc k fields db = Some db' ->
  dom db' = dom db /\ (forall k', k' <> k -> db' !! k' = db !! k').
Proof.
  unfold updateDoc. destruct (db !! k) as [o|] eqn:E; [|discriminate].
  intros [= <-]. split.
  - apply dom_insert_lookup_L. eauto.
  - intros k' Hne. now apply lookup_insert_ne.
Qed.

(** X11. An acceptance touches one document at most: [handleAcceptOffer]
    adds and removes no document and leaves every order but the active
    one as it was; it reports success exactly when the active order's
    document exists, and otherwise changes nothing. *)
Theorem accept_touches_one_document now a (offer : Offer) db :
  dom (handleAcceptOffer now (Some a) offer db).1 = dom db
  /\ (forall k, k <> order_id a ->
        (handleAcceptOffer now (Some a) offer db).1 !! k = db !! k)
  /\ ((handleAcceptOffer now (Some a) offer db).2 = Written
      <-> is_Some (db !! order_id a))
  /\ ((handleAcceptOffer now (Some a) offer db).2 <> Written ->
      (handleAcceptOffer now (Some a) offer db).1 = db).
Proof.
  unfold handleAcceptOffer.
  destruct (updateDoc (order_id a) (acceptFields now offer) db) as [db'|] eqn:E;
    cbn [fst snd].
  - destruct (updateDoc_frame _ _ _ _ E) as [Hdom Hother].
    split; [exact Hdom|]. split; [exact Hother|]. split; [|congruence].
    split; [|reflexivity]. intros _.
    unfold updateDoc in E. destruct (db !! order_id a); [eauto | discriminate].
  - split; [reflexivity|]. split; [reflexivity|]. split; [|reflexivity].
    split; [discriminate|]. intros [o Ho].
    rewrite (updateDoc_Some _ _ _ _ Ho) in E. discriminate.
Qed.

(** X12. A rating touches one document at most, and a failed rating
    keeps what was typed: [handleRateOrder] adds and removes no document
    and leaves every other order as it was; when the write is rejected
    the store is unchanged and the form still holds the rating and the
    feedback, and when it succeeds the form is back to five stars and no
    text.  Either way [isSubmitting] ends cleared. *)
Theorem rate_touches_one_document now a (form : RatingForm) db :
  let r := handleRateOrder now (Some a) form db in
  dom r.1.1 = dom db
  /\ (forall k, k <> order_id a -> r.1.1 !! k = db !! k)
  /\ (r.2 = Written <-> is_Some (db !! order_id a))
  /\ (r.2 = Written -> form_rating r.1.2 = 5%Z /\ form_feedback r.1.2 = [])
  /\ (r.2 <> Written ->
      r.1.1 = db
      /\ form_rating r.1.2 = form_rating form
      /\ form_feedback r.1.2 = form_feedback form)
  /\ isSubmitting r.1.2 = false.
Proof.
  unfold handleRateOrder.
  destruct (updateDoc (order_id a) (rateFields now form) db) as [db'|] eqn:E;
    cbn [fst snd].
  - destruct (updateDoc_frame _ _ _ _ E) as [Hdom Hother].
    split; [exact Hdom|]. split; [exact Hother|]. split.
    { split; [|reflexivity]. intros _.
      unfold updateDoc in E. destruct (db !! order_id a); [eauto | discriminate]. }
    split; [intros _; split; reflexivity|]. split; [congruence | reflexivity].
  - split; [reflexivity|]. split; [reflexivity|]. split.
    { split; [discriminate|]. intros [o Ho].
      rewrite (updateDoc_Some _ _ _ _ Ho) in E. discriminate. }
    split; [discriminate|]. split; [|reflexivity].
    intros _. repeat split; reflexivity.
Qed.

(** X13. Which order is the active one: [selectActiveOrder] gives nothing
    exactly when every order of the snapshot is rated or cancelled (an
    empty snapshot included), and otherwise the first order of the
    snapshot that is neither. *)
Theorem selectActiveOrder_first (all : list Order) :
  (selectActiveOrder all = None
   <-> Forall (fun o => status o = DELIVERED_RATED \/ status o = CANCELLED) all)
  /\ (forall a, selectActiveOrder all = Some a ->
        exists before after,
          all = before ++ a :: after
          /\ Forall (fun o => status o = DELIVERED_RATED \/ status o = CANCELLED)
               before
          /\ status a <> DELIVERED_RATED /\ status a <> CANCELLED).
Proof.
  unfold selectActiveOrder.
  induction all as [|o all [IHnone IHsome]].
  - split; [split; [constructor | reflexivity] | discriminate].
  - cbn [List.find].
    destruct (bool_decide (status o ∈ [DELIVERED_RATED; CANCELLED])) eqn:E;
      cbn [negb].
    + assert (Ho : status o = DELIVERED_RATED \/ status o = CANCELLED)
        by (destruct (status o); vm_compute in E; try discriminate; auto).
      split.
      * rewrite Forall_cons, IHnone. tauto.
      * intros a Ha. destruct (IHsome a Ha) as (before & after & -> & Hb & Hs).
        exists (o :: before), after. split; [reflexivity|].
        split; [now constructor | exact Hs].
    + assert (Ho : status o <> DELIVERED_RATED /\ status o <> CANCELLED)
        by (destruct (status o); vm_compute in E; try discriminate;
            split; discriminate).
      split.
      * split; [discriminate|]. intros H. apply Forall_cons in H as [H _]. tauto.
      * intros a [= <-]. exists [], all. split; [reflexivity|].
        split; [constructor | exact Ho].
Qed.

(** X14. Cancelling: on an existing order [cancelOrder] sets the status to
    CANCELLED and keeps every other field (an assigned courier and the
    price stay on the document); it touches no other document; the order
    can then never be picked as the active order; without a document it
    changes nothing. *)
Theorem cancel_closes_order a db :
  (forall o, db !! order_id a = Some o ->
     exists o',
       cancelOrder a db !! order_id a = Some o'
       /\ status o' = CANCELLED
       /\ (driverId o', driverName o', driverPhone o', driverPhoto o', acceptedAt o')
          = (driverId o, driverName o, driverPhone o, driverPhoto o, acceptedAt o)
       /\ (price o', distance o', rating o', feedback o', ratedAt o')
          = (price o, distance o, rating o, feedback o, ratedAt o)
       /\ (forall all : list Order, selectActiveOrder all <> Some o'))
  /\ (forall k, k <> order_id a -> cancelOrder a db !! k = db !! k)
  /\ dom (cancelOrder a db) = dom db
  /\ (db !! order_id a = None -> cancelOrder a db = db).
Proof.
  unfold cancelOrder. split; [|split; [|split]].
  - intros o Ho. rewrite (updateDoc_Some _ _ _ _ Ho).
    exists (cancelFields o). split; [apply lookup_insert_eq|].
    repeat split. intros all Hsel.
    apply selectActiveOrder_status in Hsel as [_ Hc]. now apply Hc.
  - intros k Hk.
    destruct (updateDoc (order_id a) cancelFields db) as [db'|] eqn:E;
      [|reflexivity].
    now apply (updateDoc_frame _ _ _ _ E).
  - destruct (updateDoc (order_id a) cancelFields db) as [db'|] eqn:E;
      [|reflexivity].
    now apply (updateDoc_frame _ _ _ _ E).
  - intros Hnone. now rewrite (updateDoc_None _ _ _ Hnone).
Qed.

Lemma cancel_closes_order_witness :
  exists o',
    cancelOrder Scenario.deliveredOrder (Scenario.ordersWith Scenario.deliveredOrder)
      !! lit "o1" = Some o'
    /\ status o' = CANCELLED
    /\ (driverId o', driverName o', driverPhone o', driverPhoto o', acceptedAt o')
       = (Some (lit "d2"), Some (lit "Bassem"), Some (lit "0102"), None,
          Some 2001%Z)
    /\ (price o', distance o', rating o', feedback o', ratedAt o')
       = (55%Q, 10%Q, None, None, None)
    /\ (forall all : list Order, selectActiveOrder all <> Some o').
Proof.
  apply (proj1 (cancel_closes_order Scenario.deliveredOrder
                  (Scenario.ordersWith Scenario.deliveredOrder))
           Scenario.deliveredOrder).
  vm_compute. reflexivity.
Defined.

(** X15. Cancelling and accepting, in either order: the later write
    decides.  An acceptance issued after the cancellation (from a client
    that still shows the order as waiting) succeeds, the order is ACCEPTED
    with the offer's courier and is again picked as the active order; a
    cancellation after an acceptance leaves the order CANCELLED with the
    courier and the offer's price still on it. *)
Theorem cancel_and_accept_last_write_wins now a o (offer : Offer) db :
  db !! order_id a = Some o ->
  (let r := handleAcceptOffer now (Some a) offer (cancelOrder a db) in
   r.2 = Written
   /\ exists o', r.1 !! order_id a = Some o'
        /\ status o' = ACCEPTED
        /\ driverId o' = Some (offer_driverId offer)
        /\ selectActiveOrder [o'] = Some o')
  /\ (let db1 := (handleAcceptOffer now (Some a) offer db).1 in
      exists o', cancelOrder a db1 !! order_id a = Some o'
        /\ status o' = CANCELLED
        /\ driverId o' = Some (offer_driverId offer)
        /\ price o' = offer_price offer
        /\ selectActiveOrder [o'] = None).
Proof.
  intros Hdoc. split.
  - unfold cancelOrder. rewrite (updateDoc_Some _ _ _ _ Hdoc). cbv zeta.
    rewrite (handleAcceptOffer_existing now a (cancelFields o))
      by apply lookup_insert_eq.
    cbn [fst snd]. split; [reflexivity|].
    exists (acceptFields now offer (cancelFields o)).
    split; [apply lookup_insert_eq|]. repeat split.
  - cbv zeta. rewrite (handleAcceptOffer_existing _ _ _ _ _ Hdoc). cbn [fst].
    unfold cancelOrder.
    rewrite (updateDoc_Some _ _ _ (acceptFields now offer o))
      by apply lookup_insert_eq.
    exists (cancelFields (acceptFields now offer o)).
    split; [apply lookup_insert_eq|]. repeat split.
Qed.

Lemma cancel_and_accept_last_write_wins_witness :
  (let r := handleAcceptOffer 2000 (Some Scenario.openOrder) Scenario.offerA
              (cancelOrder Scenario.openOrder
                 (Scenario.ordersWith Scenario.openOrder)) in
   r.2 = Written
   /\ exists o', r.1 !! lit "o1" = Some o'
        /\ status o' = ACCEPTED
        /\ driverId o' = Some (lit "d1")
        /\ selectActiveOrder [o'] = Some o')
  /\ (let db1 := (handleAcceptOffer 2000 (Some Scenario.openOrder) Scenario.offerA
                    (Scenario.ordersWith Scenario.openOrder)).1 in
      exists o', cancelOrder Scenario.openOrder db1 !! lit "o1" = Some o'
        /\ status o' = CANCELLED
        /\ driverId o' = Some (lit "d1")
        /\ price o' = 40%Q
        /\ selectActiveOrder [o'] = None).
Proof.
  apply (cancel_and_accept_last_write_wins 2000 Scenario.openOrder
           Scenario.openOrder Scenario.offerA
           (Scenario.ordersWith Scenario.openOrder)).
  vm_compute. reflexivity.
Defined.

(** X16. Rating after accepting: the two handlers write different fields
    but the status.  After an acceptance and then a rating of the same
    order, the order is DELIVERED_RATED, still carries the offer's
    courier, price and acceptance time, and holds the form's rating; the
    rating handler does not ask that the order was ever delivered. *)
Theorem rate_after_accept now1 now2 a o (offer : Offer) (form : RatingForm) db :
  db !! order_id a = Some o ->
  let r1 := handleAcceptOffer now1 (Some a) offer db in
  let r2 := handleRateOrder now2 (Some a) form r1.1 in
  r2.2 = Written
  /\ exists o', r2.1.1 !! order_id a = Some o'
       /\ status o' = DELIVERED_RATED
       /\ driverId o' = Some (offer_driverId offer)
       /\ price o' = offer_price offer
       /\ acceptedAt o' = Some now1
       /\ rating o' = Some (form_rating form)
       /\ ratedAt o' = Some now2.
Proof.
  intros Hdoc. cbv zeta.
  rewrite (handleAcceptOffer_existing _ _ _ _ _ Hdoc). cbn [fst].
  rewrite (handleRateOrder_existing now2 a (acceptFields now1 offer o))
    by apply lookup_insert_eq.
  cbn [fst snd]. split; [reflexivity|].
  exists (rateFields now2 form (acceptFields now1 offer o)).
  split; [apply lookup_insert_eq|]. repeat split.
Qed.

Lemma rate_after_accept_witness :
  let r1 := handleAcceptOffer 2000 (Some Scenario.openOrder) Scenario.offerA
              (Scenario.ordersWith Scenario.openOrder) in
  let r2 := handleRateOrder 3000 (Some Scenario.openOrder) Scenario.praise r1.1 in
  r2.2 = Written
  /\ exists o', r2.1.1 !! lit "o1" = Some o'
       /\ status o' = DELIVERED_RATED
       /\ driverId o' = Some (lit "d1")
       /\ price o' = 40%Q
       /\ acceptedAt o' = Some 2000%Z
       /\ rating o' = Some 5%Z
       /\ ratedAt o' = Some 3000%Z.
Proof.
  apply (rate_after_accept 2000 3000 Scenario.openOrder Scenario.openOrder
           Scenario.offerA Scenario.praise
           (Scenario.ordersWith Scenario.openOrder)).
  vm_compute. reflexivity.
Defined.

(** While the listener is subscribed, the listed offers are offers of the
    active order. *)
Lemma offersEffect_subscribed a (offers incoming : list Offer) (f : Offer) :
  order_id a <> [] ->
  status a = WAITING_FOR_OFFERS ->
  f ∈ offersEffect (Some a) offers incoming <->
  f ∈ offers /\ orderId f = order_id a.
Proof.
  intros Hid Hs. unfold offersEffect.
  rewrite bool_decide_eq_false_2 by exact Hid.
  rewrite bool_decide_eq_true_2 by exact Hs. simpl.
  rewrite list_elem_of_filter. tauto.
Qed.

(** X17. The offer's own [orderId] is not looked at: accepting an offer
    that was made for another order writes its courier and price on the
    active order, and leaves the order the offer names untouched. *)
Theorem accept_ignores_offer_order now a o (offer : Offer) db :
  db !! order_id a = Some o ->
  orderId offer <> order_id a ->
  let r := handleAcceptOffer now (Some a) offer db in
  r.2 = Written
  /\ r.1 !! orderId offer = db !! orderId offer
  /\ (driverId <$> r.1 !! order_id a) = Some (Some (offer_driverId offer))
  /\ (price <$> r.1 !! order_id a) = Some (offer_price offer).
Proof.
  intros Hdoc Hne. cbv zeta.
  rewrite (handleAcceptOffer_existing _ _ _ _ _ Hdoc). cbn [fst snd].
  split; [reflexivity|]. split; [now apply lookup_insert_ne|].
  rewrite lookup_insert_eq. split; reflexivity.
Qed.

Lemma accept_ignores_offer_order_witness :
  let r := handleAcceptOffer 2000 (Some Scenario.openOrder) Cases.strayOffer
             (Scenario.ordersWith Scenario.openOrder) in
  r.2 = Written
  /\ r.1 !! lit "o0" = Scenario.ordersWith Scenario.openOrder !! lit "o0"
  /\ (driverId <$> r.1 !! lit "o1") = Some (Some (lit "d9"))
  /\ (price <$> r.1 !! lit "o1") = Some 70%Q.
Proof.
  apply (accept_ignores_offer_order 2000 Scenario.openOrder Scenario.openOrder
           Cases.strayOffer (Scenario.ordersWith Scenario.openOrder)).
  - vm_compute. reflexivity.
  - vm_compute. discriminate.
Defined.

End OneDocument.

(* ===================================================================== *)
(** ** Submitting an order: what is stored and what is announced *)
(* ===================================================================== *)

Section Submitting.

Import Submission.
Local Open Scope Q_scope.

Implicit Types (st : Dashboard.State) (form : Form) (extraData : ExtraData).

(** X18. No village, no order.  [handleCreateOrder] stops at its first
    alert, with the form untouched and nothing built, exactly when neither
    [extraData] nor the dashboard names a drop-off village; otherwise the
    order's drop-off is the village of [extraData] when it has one and the
    dashboard's when it has not, and the order is created waiting for
    offers at the current time. *)
Theorem create_needs_a_village
    (P : Pricing) (now : Z) (resolves : bool) (user : User) st form extraData :
  let r := handleCreateOrder P now resolves user st form extraData in
  (r.2 = NoVillage
   <-> extra_deliveryVillage extraData = None /\ Dashboard.dropoffVillage st = None)
  /\ (r.2 = NoVillage -> r.1 = form /\ sentDoc r.2 = None)
  /\ (forall v, extra_deliveryVillage extraData = Some v ->
        dropoff <$> sentDoc r.2 = Some (villageLocation v))
  /\ (forall v, extra_deliveryVillage extraData = None ->
        Dashboard.dropoffVillage st = Some v ->
        dropoff <$> sentDoc r.2 = Some (villageLocation v))
  /\ (forall doc, sentDoc r.2 = Some doc ->
        status doc = WAITING_FOR_OFFERS /\ createdAt doc = now
        /\ customerId doc = user_id user).
Proof.
  cbv zeta. unfold handleCreateOrder, finalVillage.
  destruct (extra_deliveryVillage extraData) as [v|] eqn:Ev;
    [|destruct (Dashboard.dropoffVillage st) as [v|] eqn:Ed];
    destruct resolves; cbn [fst snd sentDoc];
    (split; [split; [discriminate || (intros _; split; reflexivity)
                    | intros [H1 H2]; discriminate || reflexivity]|]);
    (split; [first [discriminate | intros _; split; reflexivity]|]);
    (split; [intros v' Hv'; first [discriminate | now inversion Hv']|]);
    (split; [intros v' Hn Hv'; first [discriminate | now inversion Hv']|]);
    intros doc Hdoc; first [discriminate | inversion Hdoc; repeat split].
Qed.

Lemma orDefault_Some_nonzero (p d : Q) : ~ p == 0 -> orDefault (Some p) d = p.
Proof.
  intros Hp. simpl. destruct (Qeq_bool p 0) eqn:E; [|reflexivity].
  apply Qeq_bool_iff in E. contradiction.
Qed.

Lemma orDefault_Some_zero (p d : Q) : p == 0 -> orDefault (Some p) d = d.
Proof. intros Hp. simpl. apply Qeq_bool_iff in Hp. now rewrite Hp. Qed.

(** X19. The stored price and the announced price.  When [extraData]
    carries no price, the order is stored with the dashboard's estimate
    and the message names the same amount.  When it carries one, that
    price is stored; the message names it too unless it is zero, in which
    case the message names the dashboard's estimate while the order is
    stored with zero. *)
Theorem stored_and_announced_price
    (P : Pricing) (now : Z) (user : User) st form extraData (village : Village) :
  finalVillage st extraData = Some village ->
  exists form' doc announced,
    handleCreateOrder P now true user st form extraData
    = (form', Added doc announced)
    /\ (extra_price extraData = None ->
        price doc = Dashboard.getEstimatedPrice P st
        /\ announced = Dashboard.getEstimatedPrice P st)
    /\ (forall p, extra_price extraData = Some p ->
          price doc = p
          /\ (~ p == 0 -> announced = p)
          /\ (p == 0 -> announced = Dashboard.getEstimatedPrice P st)).
Proof.
  intros Hv. unfold handleCreateOrder. rewrite Hv.
  eexists _, _, _. split; [reflexivity|].
  unfold orderData, finalPrice; cbn [price]. split.
  - intros Hnone. rewrite Hnone. split; reflexivity.
  - intros p Hp. rewrite Hp. split; [reflexivity|]. split.
    + apply orDefault_Some_nonzero.
    + apply orDefault_Some_zero.
Qed.

Lemma stored_and_announced_price_witness :
  exists form' doc announced,
    handleCreateOrder Scenario.pricing 5000 true Cases.customer
      Scenario.taxiRide Cases.blankForm noExtra
    = (form', Added doc announced)
    /\ (extra_price noExtra = None ->
        price doc = Dashboard.getEstimatedPrice Scenario.pricing Scenario.taxiRide
        /\ announced = Dashboard.getEstimatedPrice Scenario.pricing Scenario.taxiRide)
    /\ (forall p, extra_price noExtra = Some p ->
          price doc = p
          /\ (~ p == 0 -> announced = p)
          /\ (p == 0 ->
              announced = Dashboard.getEstimatedPrice Scenario.pricing Scenario.taxiRide)).
Proof.
  apply (stored_and_announced_price Scenario.pricing 5000 Cases.customer
           Scenario.taxiRide Cases.blankForm noExtra Scenario.shatanouf).
  reflexivity.
Defined.

(** X20. An order for a restaurant that is not listed.  The dialog
    refuses to submit exactly when the name, the restaurant's village, the
    drop-off village or the order text is missing.  Otherwise the order is
    stored with the dashboard's estimate as price and with distance 0
    whatever distance the dashboard holds; its pickup is the restaurant's
    village under the typed name, its drop-off the dashboard's village,
    and the dialog's texts are cleared. *)
Theorem custom_restaurant_order
    (P : Pricing) (now : Z) (user : User) st form :
  (submitCustomRestaurant P now true user st form = Incomplete
   <-> customRestName form = [] \/ customRestPickupVillage form = None
       \/ Dashboard.dropoffVillage st = None \/ customRestOrder form = [])
  /\ (forall restVillage dropoffV,
        customRestName form <> [] ->
        customRestOrder form <> [] ->
        customRestPickupVillage form = Some restVillage ->
        Dashboard.dropoffVillage st = Some dropoffV ->
        exists form' doc,
          submitCustomRestaurant P now true user st form
          = Submitted (form', Added doc (Dashboard.getEstimatedPrice P st))
          /\ price doc = Dashboard.getEstimatedPrice P st
          /\ distance doc = 0
          /\ pickup doc
             = Some {| loc_address := customRestName form;
                       loc_lat := lat (center restVillage);
                       loc_lng := lng (center restVillage);
                       villageName := village_name restVillage |}
          /\ dropoff doc = villageLocation dropoffV
          /\ restaurantName doc = Some (customRestName form)
          /\ customNote doc = Some (customRestOrder form)
          /\ customRestName form' = [] /\ customRestOrder form' = []
          /\ showCustomRestForm form' = false).
Proof.
  unfold submitCustomRestaurant. split.
  - destruct (customRestName form) as [|c n],
             (customRestPickupVillage form) as [rv|],
             (Dashboard.dropoffVillage st) as [dv|],
             (customRestOrder form) as [|c' o];
      split; try discriminate; try tauto;
      intros [H | [H | [H | H]]]; discriminate.
  - intros restVillage dropoffV Hname Horder Hrest Hdrop.
    rewrite Hrest, Hdrop.
    destruct (customRestName form) as [|c n] eqn:En; [contradiction|].
    destruct (customRestOrder form) as [|c' o] eqn:Eo; [contradiction|].
    unfold handleCreateOrder, finalVillage, finalPrice. simpl.
    eexists _, _. split; [reflexivity|]. repeat split.
Qed.

Lemma custom_restaurant_order_witness :
  exists form' doc,
    submitCustomRestaurant Scenario.pricing 5000 true Cases.customer
      Cases.foodForm Cases.dialogForm
    = Submitted (form', Added doc
                   (Dashboard.getEstimatedPrice Scenario.pricing Cases.foodForm))
    /\ price doc = Dashboard.getEstimatedPrice Scenario.pricing Cases.foodForm
    /\ distance doc = 0
    /\ pickup doc
       = Some {| loc_address := lit "Koshary";
                 loc_lat := lat (center Scenario.ashmoun);
                 loc_lng := lng (center Scenario.ashmoun);
                 villageName := village_name Scenario.ashmoun |}
    /\ dropoff doc = villageLocation Scenario.shatanouf
    /\ restaurantName doc = Some (lit "Koshary")
    /\ customNote doc = Some (lit "2 large")
    /\ customRestName form' = [] /\ customRestOrder form' = []
    /\ showCustomRestForm form' = false.
Proof.
  apply (proj2 (custom_restaurant_order Scenario.pricing 5000 Cases.customer
                  Cases.foodForm Cases.dialogForm)
           Scenario.ashmoun Scenario.shatanouf).
  - vm_compute. discriminate.
  - vm_compute. discriminate.
  - reflexivity.
  - reflexivity.
Defined.

(** X21. Checking out a menu cart.  When the confirm button is enabled, a
    click submits an order whose stored price is the food total plus the
    delivery price of the menu view, whose distance is the view's road
    distance, whose drop-off is the village chosen in the view (not the
    dashboard's), whose items are the cart, and whose pickup is the
    restaurant with its address as village name; while the button is
    disabled a click submits nothing. *)
Theorem menu_checkout_order
    (P : Pricing) (now : Z) (user : User) st form
    (restaurant : Menu.Restaurant) (cart : list Menu.CartItem)
    (note : JSString) (village : Village) (l : MenuControls.Lookup) :
  (MenuControls.confirmDisabled cart note (Some village)
     (MenuControls.isCalculating l) = true ->
   confirmMenuOrder P now true user st form restaurant cart note (Some village) l
   = None)
  /\ (MenuControls.confirmDisabled cart note (Some village)
        (MenuControls.isCalculating l) = false ->
      exists form' doc announced,
        confirmMenuOrder P now true user st form restaurant cart note
          (Some village) l
        = Some (form', Added doc announced)
        /\ price doc
           == Menu.totalFoodItemsPrice cart
              + Menu.getDeliveryPrice P restaurant (Some village)
                  (MenuControls.roadDist l)
        /\ (~ price doc == 0 -> announced = price doc)
        /\ distance doc = MenuControls.roadDist l
        /\ dropoff doc = villageLocation village
        /\ foodItems doc = Some cart
        /\ pickup doc
           = Some {| loc_address := Menu.restaurant_name restaurant;
                     loc_lat := lat (Menu.restaurant_pos restaurant);
                     loc_lng := lng (Menu.restaurant_pos restaurant);
                     villageName := Menu.address restaurant |}).
Proof.
  unfold confirmMenuOrder. split; intros Hd; rewrite Hd; [reflexivity|].
  unfold handleCreateOrder, finalVillage, finalPrice. cbn.
  eexists _, _, _. split; [reflexivity|]. cbn.
  split; [reflexivity|]. split; [|repeat split].
  intros Hnz. unfold Menu.finalEstimatedPrice in *.
  destruct (Qeq_bool _ 0) eqn:E; [|reflexivity].
  apply Qeq_bool_iff in E. contradiction.
Qed.

Lemma menu_checkout_order_witness :
  exists form' doc announced,
    confirmMenuOrder Scenario.pricing 5000 true Cases.customer Cases.foodForm
      Cases.blankForm Scenario.streetGrill Cases.lunch [] (Some Scenario.shatanouf)
      Cases.answered
    = Some (form', Added doc announced)
    /\ price doc
       == Menu.totalFoodItemsPrice Cases.lunch
          + Menu.getDeliveryPrice Scenario.pricing Scenario.streetGrill
              (Some Scenario.shatanouf) (7 # 2)
    /\ (~ price doc == 0 -> announced = price doc)
    /\ distance doc = 7 # 2
    /\ dropoff doc = villageLocation Scenario.shatanouf
    /\ foodItems doc = Some Cases.lunch
    /\ pickup doc
       = Some {| loc_address := lit "Corner";
                 loc_lat := 3021 # 100;
                 loc_lng := 3095 # 100;
                 villageName := lit "12 Nile St, Shatanouf" |}.
Proof.
  apply (proj2 (menu_checkout_order Scenario.pricing 5000 Cases.customer
                  Cases.foodForm Cases.blankForm Scenario.streetGrill
                  Cases.lunch [] Scenario.shatanouf Cases.answered)).
  vm_compute. reflexivity.
Defined.

(** X22. A failed lookup makes the delivery free.  When the distance
    service fails on a freshly opened menu view and the restaurant's
    address is not the chosen village's name, the delivery price shown is
    0, the confirm button is enabled for any cart that is not empty, and
    the order it submits is stored with the food total alone as price and
    with distance 0. *)
Theorem failed_lookup_free_delivery
    (P : Pricing) (now : Z) (user : User) st form
    (restaurant : Menu.Restaurant) (cart : list Menu.CartItem)
    (note : JSString) (village : Village) :
  cart <> [] ->
  Menu.address restaurant <> village_name village ->
  let l := MenuControls.menuDistanceEffect None (Some village)
             MenuControls.initialLookup in
  Menu.getDeliveryPrice P restaurant (Some village) (MenuControls.roadDist l) == 0
  /\ MenuControls.confirmDisabled cart note (Some village)
       (MenuControls.isCalculating l) = false
  /\ exists form' doc announced,
       confirmMenuOrder P now true user st form restaurant cart note
         (Some village) l
       = Some (form', Added doc announced)
       /\ price doc == Menu.totalFoodItemsPrice cart
       /\ distance doc = 0.
Proof.
  intros Hcart Hne l.
  assert (Hfree : Menu.getDeliveryPrice P restaurant (Some village)
                    (MenuControls.roadDist l) == 0).
  { unfold Menu.getDeliveryPrice, l. simpl.
    rewrite bool_decide_eq_false_2 by exact Hne.
    assert (H0 : 0 * foodOutsidePricePerKm P == 0) by ring.
    rewrite H0. reflexivity. }
  assert (Hen : MenuControls.confirmDisabled cart note (Some village)
                  (MenuControls.isCalculating l) = false).
  { unfold MenuControls.confirmDisabled, l. simpl.
    destruct cart; [contradiction | reflexivity]. }
  split; [exact Hfree|]. split; [exact Hen|].
  unfold confirmMenuOrder. rewrite Hen.
  unfold handleCreateOrder, finalVillage. cbn [extra_deliveryVillage menuCheckoutExtra].
  eexists _, _, _. split; [reflexivity|]. split; [|reflexivity].
  apply Qeq_trans
    with (Menu.totalFoodItemsPrice cart
          + Menu.getDeliveryPrice P restaurant (Some village)
              (MenuControls.roadDist l)).
  - exact (Qeq_refl _).
  - rewrite Hfree. ring.
Qed.

Lemma failed_lookup_free_delivery_witness :
  let l := MenuControls.menuDistanceEffect None (Some Scenario.shatanouf)
             MenuControls.initialLookup in
  Menu.getDeliveryPrice Scenario.pricing Scenario.streetGrill
    (Some Scenario.shatanouf) (MenuControls.roadDist l) == 0
  /\ MenuControls.confirmDisabled Cases.lunch [] (Some Scenario.shatanouf)
       (MenuControls.isCalculating l) = false
  /\ exists form' doc announced,
       confirmMenuOrder Scenario.pricing 5000 true Cases.customer Cases.foodForm
         Cases.blankForm Scenario.streetGrill Cases.lunch []
         (Some Scenario.shatanouf) l
       = Some (form', Added doc announced)
       /\ price doc == Menu.totalFoodItemsPrice Cases.lunch
       /\ distance doc = 0.
Proof.
  apply (failed_lookup_free_delivery Scenario.pricing 5000 Cases.customer
           Cases.foodForm Cases.blankForm Scenario.streetGrill Cases.lunch []
           Scenario.shatanouf).
  - vm_compute. discriminate.
  - vm_compute. discriminate.
Defined.

End Submitting.
